(** * OpenCensus Django middleware: request-scoped span lifecycle

    A shallow embedding of
    [contrib/opencensus-ext-django/opencensus/ext/django/middleware.py]
    and the properties of its four hooks and of its database wrapper.

    Python objects that are mutated through several references (spans,
    tracers) live in a store and are named by their index: the span kept in
    the execution context under [django_span], the spans on the stack of a
    tracer and the local variable [span] of a function are references to the
    same object. The execution context, the log, the exporter and the
    database are fields of one [World]; a Python callable is a function from
    [World] to an outcome (a value or a raised exception) and a new [World].

    The middleware runs against collaborators it does not own (propagator,
    tracer, spans, Django's request accessors). Any call into one of them may
    raise: the world carries a schedule that says which of the coming calls
    do. Properties of the guards of the middleware are proved for every
    schedule; properties of what the middleware records are proved for the
    empty schedule, where every collaborator does what its interface says. *)

From Stdlib Require Import ZArith Ascii String.
From stdpp Require Import base option list strings gmap pretty.

Local Open Scope Z_scope.

(** ** Data model *)

Inductive SpanKind := UNSPECIFIED | SERVER | CLIENT.

Inductive AttrValue :=
  | AStr (s : string)
  | AInt (z : Z).

Record Status := mkStatus { code : Z; message : string }.

(** [google.rpc.code_pb2]: OK is 0, UNKNOWN is 2. *)
Definition OK : Z := 0.
Definition UNKNOWN : Z := 2.

Record Span := mkSpan {
  name : string;
  span_kind : SpanKind;
  status : option Status;
  attributes : gmap string AttrValue;
  parent_span : option nat;
  end_count : nat                      (* how many times the span was closed *)
}.

Record SpanContext := mkSpanContext {
  trace_id : option string;
  span_id : option string;
  sampled : option bool;
  tracestate : list (string * string)
}.

(** The sampler and the exporter are opaque configured objects; the
    propagator is used through [from_headers], which receives the carrier's
    [get]. *)
Definition Sampler := string.
Definition Exporter := string.
Record Propagator := mkPropagator {
  from_headers : (string -> option string) -> SpanContext
}.

Record Tracer := mkTracer {
  span_context : SpanContext;
  tr_sampler : Sampler;
  tr_exporter : Exporter;
  tr_propagator : Propagator;
  open_spans : list nat;               (* innermost first: head = current span *)
  finished_spans : list nat
}.

(** Django side. *)
Record User := mkUser {
  pk : option Z;
  username : option string             (* what get_username() returns *)
}.

Record HttpRequest := mkRequest {
  path : string;
  method : string;
  host : string;                       (* what get_host() returns *)
  absolute_uri : string;               (* what build_absolute_uri() returns *)
  META : gmap string string;
  user : option User                   (* getattr(request, 'user', None) *)
}.

Record HttpResponse := mkResponse {
  status_code : Z;
  content : string
}.

(** An exception object. Every exception of the model is an instance of
    [Exception], the class the [except] clauses of the module catch;
    [KeyboardInterrupt], [SystemExit] and the like are outside the model. *)
Record PyException := mkException {
  exc_class : string;                  (* exception.__class__.__name__ *)
  exc_str : string;                    (* str(exception) *)
  exc_traceback : option (list string) (* __traceback__, frames as format_tb gives them *)
}.

Record Connection := mkConnection { vendor : string; alias : string }.
Record DbContext := mkDbContext { connection : Connection }.

Definition Database := list string.
Definition Rows := list string.

Inductive Outcome (A : Type) :=
  | Ret (a : A)
  | Raise (e : PyException).
Arguments Ret {A} a.
Arguments Raise {A} e.

(** The wrapped database call: it reads and changes the database only. *)
Definition Execute :=
  string -> list string -> bool -> DbContext -> Database -> Outcome Rows * Database.

(** What the execution context can hold under a key. *)
Inductive Value :=
  | VNone
  | VRequest (r : HttpRequest)
  | VSpan (s : nat)
  | VList (l : list string).

Record World := mkWorld {
  attrs : gmap string Value;           (* execution_context attributes *)
  tracer_slot : option nat;            (* execution_context tracer *)
  tracers : list Tracer;               (* Tracer objects, by reference *)
  spans : list Span;                   (* Span objects, by reference *)
  error_log : list string;             (* records emitted by log.error *)
  exported : list (list nat);          (* batches handed to the exporter *)
  database : Database;
  exc_info : list string;              (* traceback of sys.exc_info() *)
  faults : list bool                   (* which collaborator calls raise, in call order *)
}.

Definition set_attrs (f : gmap string Value -> gmap string Value) (w : World) : World :=
  mkWorld (f (attrs w)) (tracer_slot w) (tracers w) (spans w) (error_log w)
          (exported w) (database w) (exc_info w) (faults w).
Definition set_tracer_slot (t : option nat) (w : World) : World :=
  mkWorld (attrs w) t (tracers w) (spans w) (error_log w)
          (exported w) (database w) (exc_info w) (faults w).
Definition set_tracers (f : list Tracer -> list Tracer) (w : World) : World :=
  mkWorld (attrs w) (tracer_slot w) (f (tracers w)) (spans w) (error_log w)
          (exported w) (database w) (exc_info w) (faults w).
Definition set_spans (f : list Span -> list Span) (w : World) : World :=
  mkWorld (attrs w) (tracer_slot w) (tracers w) (f (spans w)) (error_log w)
          (exported w) (database w) (exc_info w) (faults w).
Definition set_error_log (f : list string -> list string) (w : World) : World :=
  mkWorld (attrs w) (tracer_slot w) (tracers w) (spans w) (f (error_log w))
          (exported w) (database w) (exc_info w) (faults w).
Definition set_exported (f : list (list nat) -> list (list nat)) (w : World) : World :=
  mkWorld (attrs w) (tracer_slot w) (tracers w) (spans w) (error_log w)
          (f (exported w)) (database w) (exc_info w) (faults w).
Definition set_database (d : Database) (w : World) : World :=
  mkWorld (attrs w) (tracer_slot w) (tracers w) (spans w) (error_log w)
          (exported w) d (exc_info w) (faults w).
Definition set_faults (fs : list bool) (w : World) : World :=
  mkWorld (attrs w) (tracer_slot w) (tracers w) (spans w) (error_log w)
          (exported w) (database w) (exc_info w) fs.

(** ** Python control flow *)

Definition M (A : Type) : Type := World -> Outcome A * World.

Definition ret {A} (a : A) : M A := fun w => (Ret a, w).
Definition raise {A} (e : PyException) : M A := fun w => (Raise e, w).
Definition bind {A B} (m : M A) (k : A -> M B) : M B :=
  fun w => match m w with
           | (Ret a, w') => k a w'
           | (Raise e, w') => (Raise e, w')
           end.

Declare Scope py_scope.
Delimit Scope py_scope with py.
Notation "x <- m ;; k" := (bind m (fun x => k))
  (at level 100, m at next level, k at level 200, right associativity) : py_scope.
Notation "m ;;; k" := (bind m (fun _ => k))
  (at level 100, k at level 200, right associativity) : py_scope.
Local Open Scope py_scope.

(** [try: m  except Exception as e: h e] *)
Definition try_except {A} (m : M A) (h : PyException -> M A) : M A :=
  fun w => match m w with
           | (Ret a, w') => (Ret a, w')
           | (Raise e, w') => h e w'
           end.

(** [try: m  finally: fin]; an exception of [fin] replaces the outcome of [m]. *)
Definition try_finally {A} (m : M A) (fin : M unit) : M A :=
  fun w => match m w with
           | (o, w') => match fin w' with
                        | (Ret _, w'') => (o, w'')
                        | (Raise e, w'') => (Raise e, w'')
                        end
           end.

(** [try: m  finally: return v]; the [return] discards whatever [m] did. *)
Definition finally_return {A B} (m : M A) (v : B) : M B :=
  fun w => (Ret v, snd (m w)).

(** ** Module constants *)

(** Modelled from the spec: the table [attributes_helper.COMMON_ATTRIBUTES] is
    not part of the sources at hand; the keys are the ones the spec's examples
    show ([http.status_code], [error.name], [error.message]) and their
    siblings in the same naming. *)
Definition HTTP_HOST := "http.host".
Definition HTTP_METHOD := "http.method".
Definition HTTP_PATH := "http.path".
Definition HTTP_ROUTE := "http.route".
Definition HTTP_URL := "http.url".
Definition HTTP_STATUS_CODE := "http.status_code".
Definition ERROR_MESSAGE := "error.message".
Definition ERROR_NAME := "error.name".
Definition STACKTRACE := "stacktrace".

Definition REQUEST_THREAD_LOCAL_KEY := "django_request".
Definition SPAN_THREAD_LOCAL_KEY := "django_span".

Definition attribute_error : PyException :=
  mkException "AttributeError" "'NoneType' object has no attribute" None.
Definition collaborator_failure : PyException :=
  mkException "RuntimeError" "collaborator failure" None.

(** ** Collaborators

    Every call into a collaborator (propagator, tracer, span, request
    accessors, helpers) first consults the fault schedule of the world: the
    head says whether this call raises; an empty schedule means that every
    remaining call succeeds. *)
Definition collaborator : M unit :=
  fun w => match faults w with
           | true :: fs => (Raise collaborator_failure, set_faults fs w)
           | false :: fs => (Ret tt, set_faults fs w)
           | [] => (Ret tt, w)
           end.

Definition log_error (msg : string) : M unit :=
  fun w => (Ret tt, set_error_log (fun l => l ++ [msg]) w).

(** Modelled from the spec: [execution_context], the Context Store, is a
    per-request key/value store plus the slot of the request's tracer. *)
Definition get_opencensus_attr (attr_key : string) : M Value :=
  fun w => (Ret (default VNone (attrs w !! attr_key)), w).
Definition set_opencensus_attr (attr_key : string) (attr_value : Value) : M unit :=
  fun w => (Ret tt, set_attrs (insert attr_key attr_value) w).
Definition get_opencensus_tracer : M (option nat) :=
  fun w => (Ret (tracer_slot w), w).

(** Modelled from the spec: the Span object of [opencensus.trace.span], with
    a mutable name, kind, status and attribute mapping. [update_span] writes
    the object behind a reference; a reference to no object cannot arise. *)
Definition update_span (s : nat) (f : Span -> Span) : M unit :=
  fun w => match spans w !! s with
           | Some sp => (Ret tt, set_spans (fun l => <[s := f sp]> l) w)
           | None => (Raise attribute_error, w)
           end.

Definition with_name (n : string) (sp : Span) : Span :=
  mkSpan n (span_kind sp) (status sp) (attributes sp) (parent_span sp) (end_count sp).
Definition with_span_kind (k : SpanKind) (sp : Span) : Span :=
  mkSpan (name sp) k (status sp) (attributes sp) (parent_span sp) (end_count sp).
Definition with_status (st : Status) (sp : Span) : Span :=
  mkSpan (name sp) (span_kind sp) (Some st) (attributes sp) (parent_span sp) (end_count sp).
Definition with_attribute (k : string) (v : AttrValue) (sp : Span) : Span :=
  mkSpan (name sp) (span_kind sp) (status sp) (<[k := v]> (attributes sp))
         (parent_span sp) (end_count sp).
Definition closed (sp : Span) : Span :=
  mkSpan (name sp) (span_kind sp) (status sp) (attributes sp) (parent_span sp)
         (S (end_count sp)).

(** [span.name = n] and [span.span_kind = k]: plain attribute assignments.
    On anything that is not a span (None in particular) Python raises
    AttributeError. *)
Definition span_assign (span : Value) (f : Span -> Span) : M unit :=
  match span with
  | VSpan s => update_span s f
  | _ => raise attribute_error
  end.

(** Modelled from the spec: [span.add_attribute(k, v)] and
    [span.set_status(st)], method calls of the Span. Looking the method up on
    something that is not a span raises AttributeError before any call. *)
Definition span_call (span : Value) (f : Span -> Span) : M unit :=
  match span with
  | VSpan s => collaborator ;;; update_span s f
  | _ => raise attribute_error
  end.

Definition add_attribute (span : Value) (attribute_key : string)
    (attribute_value : AttrValue) : M unit :=
  span_call span (with_attribute attribute_key attribute_value).
Definition set_status (span : Value) (st : Status) : M unit :=
  span_call span (with_status st).

(** Modelled from the spec: a span as [tracer.start_span()] creates it, with
    the placeholder name, no status, no attribute and no end. *)
Definition new_span (parent : option nat) : Span :=
  mkSpan "span" UNSPECIFIED None ∅ parent 0%nat.

Definition with_open_spans (l : list nat) (T : Tracer) : Tracer :=
  mkTracer (span_context T) (tr_sampler T) (tr_exporter T) (tr_propagator T)
           l (finished_spans T).
Definition with_finished (l : list nat) (T : Tracer) : Tracer :=
  mkTracer (span_context T) (tr_sampler T) (tr_exporter T) (tr_propagator T)
           (open_spans T) l.

(** Modelled from the spec: [tracer_module.Tracer(...)], one tracer per
    request, bound to a span context, a sampler, an exporter and a
    propagator, with no span open. Constructing it makes it the tracer of the
    execution context, which is where [_get_current_tracer] finds it. The
    decision of the sampler is outside the model: spans are recorded whatever
    it is. *)
Definition Tracer_init (sc : SpanContext) (sampler : Sampler) (exporter : Exporter)
    (propagator : Propagator) : M (option nat) :=
  collaborator ;;;
  fun w => let t := length (tracers w) in
           (Ret (Some t),
            set_tracer_slot (Some t)
              (set_tracers (fun l => l ++ [mkTracer sc sampler exporter propagator [] []]) w)).

(** A method call on what [_get_current_tracer] returned: AttributeError on
    None, else a collaborator call on the tracer object. *)
Definition tracer_call {A} (tracer : option nat) (f : nat -> Tracer -> M A) : M A :=
  match tracer with
  | None => raise attribute_error
  | Some t =>
      collaborator ;;;
      fun w => match tracers w !! t with
               | Some T => f t T w
               | None => (Raise attribute_error, w)
               end
  end.

(** Modelled from the spec: [tracer.start_span()] opens a span under the
    current span and makes it the current span. *)
Definition start_span (tracer : option nat) : M Value :=
  tracer_call tracer (fun t T w =>
    let s := length (spans w) in
    (Ret (VSpan s),
     set_tracers (fun l => <[t := with_open_spans (s :: open_spans T) T]> l)
       (set_spans (fun l => l ++ [new_span (head (open_spans T))]) w))).

(** Modelled from the spec: [tracer.current_span()] is the most recently
    started span that has not ended, None when there is none. *)
Definition current_span (tracer : option nat) : M Value :=
  tracer_call tracer (fun _ T =>
    ret (match open_spans T with s :: _ => VSpan s | [] => VNone end)).

(** Modelled from the spec: [tracer.add_attribute_to_current_span(k, v)]
    is [add_attribute] on the current span. *)
Definition add_attribute_to_current_span (tracer : option nat)
    (attribute_key : string) (attribute_value : AttrValue) : M unit :=
  tracer_call tracer (fun _ T =>
    match open_spans T with
    | s :: _ => update_span s (with_attribute attribute_key attribute_value)
    | [] => raise attribute_error
    end).

(** Modelled from the spec: [tracer.end_span()] closes the current span and
    makes its predecessor on the stack current; with no span open it does
    nothing. *)
Definition end_span (tracer : option nat) : M unit :=
  tracer_call tracer (fun t T =>
    match open_spans T with
    | [] => ret tt
    | s :: rest =>
        update_span s closed ;;;
        fun w => (Ret tt,
                  set_tracers (fun l =>
                    <[t := with_finished (finished_spans T ++ [s]) (with_open_spans rest T)]> l) w)
    end).

(** Modelled from the spec: [tracer.finish()] hands the finished spans of
    the tracer to the exporter, in one batch. *)
Definition finish (tracer : option nat) : M unit :=
  tracer_call tracer (fun _ T w =>
    (Ret tt, set_exported (fun l => l ++ [finished_spans T]) w)).

(** Django's request and user accessors, [utils.get_func_name] and the
    propagator's [from_headers]: calls that return a value or raise. *)
Definition get_host (request : HttpRequest) : M string :=
  collaborator ;;; ret (host request).
Definition build_absolute_uri (request : HttpRequest) : M string :=
  collaborator ;;; ret (absolute_uri request).
Definition get_username (django_user : User) : M (option string) :=
  collaborator ;;; ret (username django_user).

Record ViewFunc := mkViewFunc { func_name : string }.
Definition get_func_name (view_func : ViewFunc) : M string :=
  collaborator ;;; ret (func_name view_func).

Definition propagator_from_headers (p : Propagator) (get : string -> option string)
    : M SpanContext :=
  collaborator ;;; ret (from_headers p get).

(** ['\n'.join(lines)] *)
Definition newline : string := String (Ascii.ascii_of_nat 10) "".
Fixpoint join_lines (lines : list string) : string :=
  match lines with
  | [] => ""
  | [l] => l
  | l :: rest => l +:+ newline +:+ join_lines rest
  end.

(** The wrapped call acts on the database of the world. *)
Definition call (execute : Execute) (sql : string) (params : list string)
    (many : bool) (context : DbContext) : M Rows :=
  fun w => match execute sql params many context (database w) with
           | (o, d) => (o, set_database d w)
           end.

(** [traceback.format_tb(tb)]: the traceback is kept as its formatted frames. *)
Definition format_tb (tb : list string) : M (list string) :=
  collaborator ;;; ret tb.

(** [sys.exc_info()[2]] *)
Definition sys_exc_info_tb : M (list string) :=
  fun w => (Ret (exc_info w), w).

(** ** The middleware module *)

Definition _get_django_request : M Value :=
  get_opencensus_attr REQUEST_THREAD_LOCAL_KEY.

Definition _get_django_span : M Value :=
  get_opencensus_attr SPAN_THREAD_LOCAL_KEY.

Definition _get_current_tracer : M (option nat) :=
  get_opencensus_tracer.

(** [request.META] of whatever the context store returned. *)
Definition get_META (request : Value) : M (gmap string string) :=
  match request with
  | VRequest r => ret (META r)
  | _ => raise attribute_error
  end.

Definition upper_ascii (c : ascii) : ascii :=
  let n := Ascii.nat_of_ascii c in
  if ((97 <=? n)%nat && (n <=? 122)%nat)%bool then Ascii.ascii_of_nat (n - 32) else c.
Definition hyphen_to_underscore (c : ascii) : ascii :=
  if Ascii.eqb c "-"%char then "_"%char else c.
Fixpoint string_map (f : ascii -> ascii) (s : string) : string :=
  match s with
  | EmptyString => EmptyString
  | String c s' => String (f c) (string_map f s')
  end.

Record _DjangoMetaWrapper := mkMetaWrapper { meta : gmap string string }.

(** [self.meta = meta or _get_django_request().META] *)
Definition _DjangoMetaWrapper_init (meta : gmap string string) : M _DjangoMetaWrapper :=
  if decide (meta = ∅)
  then r <- _get_django_request ;;
       m <- get_META r ;;
       ret (mkMetaWrapper m)
  else ret (mkMetaWrapper meta).

Definition _DjangoMetaWrapper_get (self : _DjangoMetaWrapper) (key : string)
    : option string :=
  meta self !! ("HTTP_" +:+ string_map hyphen_to_underscore (string_map upper_ascii key)).

Definition _set_django_attributes (span : Value) (request : HttpRequest) : M unit :=
  match user request with
  | None => ret tt
  | Some django_user =>
      let user_id := pk django_user in
      user_name <- get_username django_user ;;
      match user_id with
      | Some i => add_attribute span "django.user.id" (AStr (pretty i))
      | None => ret tt
      end ;;;
      match user_name with
      | Some n => add_attribute span "django.user.name" (AStr n)
      | None => ret tt
      end
  end.

Definition db_error : Status := mkStatus UNKNOWN "DB error".

Definition _trace_db_call (execute : Execute) (sql : string) (params : list string)
    (many : bool) (context : DbContext) : M Rows :=
  tracer <- _get_current_tracer ;;
  match tracer with
  | None => call execute sql params many context
  | Some _ =>
      let vendor := vendor (connection context) in
      let alias := alias (connection context) in
      span <- start_span tracer ;;
      span_assign span (with_name (vendor +:+ ".query")) ;;;
      span_assign span (with_span_kind CLIENT) ;;;
      add_attribute_to_current_span tracer "component" (AStr vendor) ;;;
      add_attribute_to_current_span tracer "db.instance" (AStr alias) ;;;
      add_attribute_to_current_span tracer "db.statement" (AStr sql) ;;;
      add_attribute_to_current_span tracer "db.type" (AStr "sql") ;;;
      try_finally
        (try_except (call execute sql params many context)
                    (fun e => set_status span db_error ;;; raise e))
        (end_span tracer)
  end.

Record OpencensusMiddleware := mkMiddleware {
  sampler : Sampler;
  exporter : Exporter;
  propagator : Propagator;
  excludelist_paths : option (list string);
  excludelist_hostnames : option (list string)
}.

(** A setting is an object or the dotted name of one. *)
Inductive Setting (A : Type) :=
  | ByName (dotted : string)
  | Instance (a : A).
Arguments ByName {A} dotted.
Arguments Instance {A} a.

Record Settings := mkSettings {
  SAMPLER : option (Setting Sampler);
  EXPORTER : option (Setting Exporter);
  PROPAGATOR : option (Setting Propagator);
  EXCLUDELIST_PATHS : option (list string);
  EXCLUDELIST_HOSTNAMES : option (list string)
}.

Definition failed_to_trace : string := "Failed to trace request".

Definition python_none_or_list (l : option (list string)) : Value :=
  match l with
  | Some l => VList l
  | None => VNone
  end.

Section Middleware.

(** [utils.disable_tracing_url], [configuration.load] and the default
    collaborators are not among the sources at hand; they are taken as
    parameters. The spec gives the exclusion predicate as a pure function of
    the path and the configured patterns. *)
Variable disable_tracing_url : string -> option (list string) -> bool.
Variable ProbabilitySampler : Sampler.
Variable PrintExporter : Exporter.
Variable TraceContextPropagator : Propagator.
Variable load_sampler : string -> Sampler.
Variable load_exporter : string -> Exporter.
Variable load_propagator : string -> Propagator.

(** [settings.get(K, None) or default], then [configuration.load] when the
    value is a string. The registration of [_trace_db_call] as an execute
    wrapper and of the integration act on Django's globals, outside the
    world modelled here. *)
Definition setting_or_default {A} (s : option (Setting A)) (dflt : A)
    (load : string -> A) : A :=
  match s with
  | None => dflt
  | Some (ByName "") => dflt
  | Some (ByName dotted) => load dotted
  | Some (Instance a) => a
  end.

Definition OpencensusMiddleware_init (settings : Settings) : OpencensusMiddleware :=
  mkMiddleware
    (setting_or_default (SAMPLER settings) ProbabilitySampler load_sampler)
    (setting_or_default (EXPORTER settings) PrintExporter load_exporter)
    (setting_or_default (PROPAGATOR settings) TraceContextPropagator load_propagator)
    (EXCLUDELIST_PATHS settings)
    (EXCLUDELIST_HOSTNAMES settings).

(** The body of the [try] of [process_request]. *)
Definition process_request_tracing (self : OpencensusMiddleware)
    (request : HttpRequest) : M unit :=
  r <- _get_django_request ;;
  m <- get_META r ;;
  carrier <- _DjangoMetaWrapper_init m ;;
  span_context <- propagator_from_headers (propagator self)
                    (_DjangoMetaWrapper_get carrier) ;;
  tracer <- Tracer_init span_context (sampler self) (exporter self)
              (propagator self) ;;
  span <- start_span tracer ;;
  span_assign span (with_span_kind SERVER) ;;;
  h <- get_host request ;;
  add_attribute_to_current_span tracer HTTP_HOST (AStr h) ;;;
  add_attribute_to_current_span tracer HTTP_METHOD (AStr (method request)) ;;;
  add_attribute_to_current_span tracer HTTP_PATH (AStr (path request)) ;;;
  add_attribute_to_current_span tracer HTTP_ROUTE (AStr (path request)) ;;;
  u <- build_absolute_uri request ;;
  add_attribute_to_current_span tracer HTTP_URL (AStr u) ;;;
  set_opencensus_attr SPAN_THREAD_LOCAL_KEY span.

Definition process_request (self : OpencensusMiddleware) (request : HttpRequest)
    : M unit :=
  if disable_tracing_url (path request) (excludelist_paths self) then ret tt
  else
    set_opencensus_attr REQUEST_THREAD_LOCAL_KEY (VRequest request) ;;;
    set_opencensus_attr "excludelist_hostnames"
      (python_none_or_list (excludelist_hostnames self)) ;;;
    try_except (process_request_tracing self request)
               (fun _ => log_error failed_to_trace).

(** The body of the [try] of [process_view]. *)
Definition process_view_tracing (view_func : ViewFunc) : M unit :=
  tracer <- _get_current_tracer ;;
  span <- current_span tracer ;;
  n <- get_func_name view_func ;;
  span_assign span (with_name n).

Definition process_view (self : OpencensusMiddleware) (request : HttpRequest)
    (view_func : ViewFunc) : M unit :=
  if disable_tracing_url (path request) (excludelist_paths self) then ret tt
  else try_except (process_view_tracing view_func)
                  (fun _ => log_error failed_to_trace).

(** The body of the [try] of [process_response]. *)
Definition process_response_tracing (request : HttpRequest)
    (response : HttpResponse) : M unit :=
  span <- _get_django_span ;;
  add_attribute span HTTP_STATUS_CODE (AInt (status_code response)) ;;;
  _set_django_attributes span request ;;;
  tracer <- _get_current_tracer ;;
  end_span tracer ;;;
  finish tracer.

Definition process_response (self : OpencensusMiddleware) (request : HttpRequest)
    (response : HttpResponse) : M HttpResponse :=
  if disable_tracing_url (path request) (excludelist_paths self) then ret response
  else finally_return
         (try_except (process_response_tracing request response)
                     (fun _ => log_error failed_to_trace))
         response.

(** The body of the [try] of [process_exception]. *)
Definition process_exception_tracing (request : HttpRequest)
    (exception : PyException) : M unit :=
  tb <- match exc_traceback exception with
        | Some tb => ret tb
        | None => sys_exc_info_tb
        end ;;
  span <- _get_django_span ;;
  add_attribute span ERROR_NAME (AStr (exc_class exception)) ;;;
  add_attribute span ERROR_MESSAGE (AStr (exc_str exception)) ;;;
  frames <- format_tb tb ;;
  add_attribute span STACKTRACE (AStr (join_lines frames)) ;;;
  _set_django_attributes span request.

Definition process_exception (self : OpencensusMiddleware) (request : HttpRequest)
    (exception : PyException) : M unit :=
  if disable_tracing_url (path request) (excludelist_paths self) then ret tt
  else try_except (process_exception_tracing request exception)
                  (fun _ => log_error failed_to_trace).

End Middleware.

(** ** A request served from start to end

    Between [process_request] and [process_response] the framework resolves
    the view, the view issues database calls through the wrapper, and an
    unhandled exception reaches [process_exception]. What the view does with
    the outcome of a database call is its own business. *)

Inductive Event :=
  | EView (view_func : ViewFunc)
  | EQuery (execute : Execute) (sql : string) (params : list string)
           (many : bool) (context : DbContext)
  | EException (exception : PyException).

Section Lifecycle.

Variable disable_tracing_url : string -> option (list string) -> bool.

Definition run_event (self : OpencensusMiddleware) (request : HttpRequest)
    (ev : Event) : M unit :=
  match ev with
  | EView view_func => process_view disable_tracing_url self request view_func
  | EQuery execute sql params many context =>
      try_except (_trace_db_call execute sql params many context ;;; ret tt)
                 (fun _ => ret tt)
  | EException exception =>
      process_exception disable_tracing_url self request exception
  end.

Fixpoint run_events (self : OpencensusMiddleware) (request : HttpRequest)
    (evs : list Event) : M unit :=
  match evs with
  | [] => ret tt
  | ev :: rest => run_event self request ev ;;; run_events self request rest
  end.

End Lifecycle.

(** ** Instances of the parameters used in the examples

    A path is excluded when it starts with one of the patterns; a host name
    is excluded when it is one of the configured names. *)
Definition startswith_any (url : string) (patterns : option (list string)) : bool :=
  existsb (fun p => String.prefix p url) (default [] patterns).
Definition is_listed (hostname : string) (patterns : option (list string)) : bool :=
  existsb (String.eqb hostname) (default [] patterns).

(** ** Reasoning about outcomes

    [wp m Q E w]: run from [w], [m] either returns a value and a world in [Q]
    or raises an exception with a world in [E]. *)
Definition wp {A} (m : M A) (Q : A -> World -> Prop)
    (E : PyException -> World -> Prop) (w : World) : Prop :=
  match m w with
  | (Ret a, w') => Q a w'
  | (Raise e, w') => E e w'
  end.

(** [stable f m]: the observation [f] of the world is the same after [m],
    whatever the outcome. *)
Definition stable {A B} (f : World -> B) (m : M A) : Prop :=
  forall w, f (snd (m w)) = f w.

Definition raised {A} (o : Outcome A) : bool :=
  match o with
  | Ret _ => false
  | Raise _ => true
  end.

(** One field of every span in the store; the close counts in particular. *)
Definition span_view {C} (proj : Span -> C) (w : World) : list C :=
  proj <$> spans w.

(** The same middleware configured with other host name patterns. *)
Definition with_hostnames (hostnames : option (list string))
    (self : OpencensusMiddleware) : OpencensusMiddleware :=
  mkMiddleware (sampler self) (exporter self) (propagator self)
               (excludelist_paths self) hostnames.

(** The log records a guarded tracing block leaves: one when the path is not
    excluded and the block raised. *)
Definition failure_records (excluded : bool) (o : Outcome unit) : list string :=
  if excluded then [] else if raised o then [failed_to_trace] else [].

(** A request is open: its tracer is the tracer of the context, the root
    span is the only open span, it is the span kept in the context store, it
    has not been closed, and every younger span is a child of it. *)
Definition request_open (root t : nat) (w : World) : Prop :=
  faults w = [] /\
  tracer_slot w = Some t /\
  attrs w !! SPAN_THREAD_LOCAL_KEY = Some (VSpan root) /\
  (exists T, tracers w !! t = Some T /\ open_spans T = [root]) /\
  (exists sp, spans w !! root = Some sp /\ end_count sp = 0%nat /\
              parent_span sp = None) /\
  (forall i sp, spans w !! i = Some sp -> (root < i)%nat ->
                parent_span sp = Some root).

(** ** What each primitive leaves alone

    [ignores f upd]: the observation [f] does not read the field that [upd]
    writes. *)
Definition ignores {B C} (f : World -> B) (upd : C -> World -> World) : Prop :=
  forall c w, f (upd c w) = f w.

(** The world in which the [try] of [process_request] starts. *)
Definition request_recorded (self : OpencensusMiddleware) (request : HttpRequest)
    (w : World) : World :=
  set_attrs (insert "excludelist_hostnames"
               (python_none_or_list (excludelist_hostnames self)))
    (set_attrs (insert REQUEST_THREAD_LOCAL_KEY (VRequest request)) w).

(** What [_set_django_attributes] does to the span. *)
Definition with_user (u : option User) (sp : Span) : Span :=
  match u with
  | None => sp
  | Some django_user =>
      let sp1 := match pk django_user with
                 | Some i => with_attribute "django.user.id" (AStr (pretty i)) sp
                 | None => sp
                 end in
      match username django_user with
      | Some n => with_attribute "django.user.name" (AStr n) sp1
      | None => sp1
      end
  end.

(** The traceback [process_exception] formats. *)
Definition traceback_of (exception : PyException) (w : World) : list string :=
  match exc_traceback exception with
  | Some tb => tb
  | None => exc_info w
  end.

Definition with_exception (exception : PyException) (tb : list string) (sp : Span) : Span :=
  with_attribute STACKTRACE (AStr (join_lines tb))
    (with_attribute ERROR_MESSAGE (AStr (exc_str exception))
       (with_attribute ERROR_NAME (AStr (exc_class exception)) sp)).

Definition with_response (request : HttpRequest) (response : HttpResponse)
    (sp : Span) : Span :=
  with_user (user request)
    (with_attribute HTTP_STATUS_CODE (AInt (status_code response)) sp).

(** The span context decoded from the headers of the request. *)
Definition decoded_context (self : OpencensusMiddleware) (request : HttpRequest)
    : SpanContext :=
  from_headers (propagator self)
    (_DjangoMetaWrapper_get (mkMetaWrapper (META request))).

(** The root span as [process_request] leaves it. *)
Definition root_span (request : HttpRequest) : Span :=
  with_attribute HTTP_URL (AStr (absolute_uri request))
    (with_attribute HTTP_ROUTE (AStr (path request))
       (with_attribute HTTP_PATH (AStr (path request))
          (with_attribute HTTP_METHOD (AStr (method request))
             (with_attribute HTTP_HOST (AStr (host request))
                (with_span_kind SERVER (new_span None)))))).

Definition request_tracer (self : OpencensusMiddleware) (request : HttpRequest)
    (root : nat) : Tracer :=
  mkTracer (decoded_context self request) (sampler self) (exporter self)
           (propagator self) [root] [].

Definition request_opened (self : OpencensusMiddleware) (request : HttpRequest)
    (w : World) : World :=
  set_attrs (insert SPAN_THREAD_LOCAL_KEY (VSpan (length (spans w))))
    (set_spans (fun l => l ++ [root_span request])
       (set_tracer_slot (Some (length (tracers w)))
          (set_tracers (fun l => l ++ [request_tracer self request (length (spans w))])
             (request_recorded self request w)))).

(** The child span of a database call, before the call is made. *)
Definition query_span (sql : string) (context : DbContext) (parent : option nat) : Span :=
  with_attribute "db.type" (AStr "sql")
    (with_attribute "db.statement" (AStr sql)
       (with_attribute "db.instance" (AStr (alias (connection context)))
          (with_attribute "component" (AStr (vendor (connection context)))
             (with_span_kind CLIENT
                (with_name (vendor (connection context) +:+ ".query")
                   (new_span parent)))))).

(** The world after an instrumented database call: the child span [c] is in
    the store, closed, and the tracer is back to the spans it had open. *)
Definition query_traced (t : nat) (T : Tracer) (c : Span) (d : Database)
    (w : World) : World :=
  set_database d
    (set_tracers (fun l => <[t := with_finished (finished_spans T ++ [length (spans w)]) T]> l)
       (set_spans (fun l => l ++ [closed c]) w)).

(** ** Examples used by the witnesses *)

Definition ex_world : World := mkWorld ∅ None [] [] [] [] [] [] [].
Definition ex_propagator : Propagator :=
  mkPropagator (fun get => mkSpanContext (get "traceparent") None None []).
Definition ex_middleware : OpencensusMiddleware :=
  mkMiddleware "sampler" "exporter" ex_propagator
               (Some ["/healthz"]) (Some ["shop.example.com"]).
Definition ex_alice : User := mkUser (Some 7) (Some "alice").
Definition ex_request : HttpRequest :=
  mkRequest "/orders/42" "GET" "shop.example.com"
            "http://shop.example.com/orders/42"
            {[ "HTTP_TRACEPARENT" := "00-0af7651916cd43dd8448eb211c80319c-01" ]}
            (Some ex_alice).
(** The same request from a user whose primary key is null. *)
Definition ex_request_no_pk : HttpRequest :=
  mkRequest "/orders/42" "GET" "shop.example.com"
            "http://shop.example.com/orders/42" ∅
            (Some (mkUser None (Some "alice"))).
Definition ex_health_request : HttpRequest :=
  mkRequest "/healthz" "GET" "shop.example.com"
            "http://shop.example.com/healthz" ∅ None.
Definition ex_response : HttpResponse := mkResponse 200 "ok".
Definition ex_view : ViewFunc := mkViewFunc "OrdersView".
Definition ex_boom : PyException :=
  mkException "ValueError" "boom" (Some ["frame 1"; "frame 2"]).
Definition ex_context : DbContext := mkDbContext (mkConnection "postgresql" "default").
Definition ex_select : Execute := fun sql _ _ _ d => (Ret [sql], (d ++ [sql])%list).
Definition ex_failing : Execute := fun sql _ _ _ d => (Raise ex_boom, d).

(** The world after the start of [ex_request], and the same world with a
    tracer whose next call raises. *)
Definition ex_traced_world : World :=
  snd (process_request startswith_any ex_middleware ex_request ex_world).
Definition ex_failing_tracer_world : World := set_faults [true] ex_traced_world.

(** The world in which the view has opened a span of its own and left it
    open: the current span of the tracer is not the span of the request. *)
Definition ex_child_open_world : World :=
  snd (start_span (Some 0%nat) ex_traced_world).

(** ** Definitions for the further properties *)

(** The name under which Django keeps the header [key] in [request.META]. *)
Definition meta_name (key : string) : string :=
  "HTTP_" +:+ string_map hyphen_to_underscore (string_map upper_ascii key).

(** Header names are ASCII; on ASCII [upper_ascii] is what [str.upper] does. *)
Fixpoint is_ascii (s : string) : bool :=
  match s with
  | EmptyString => true
  | String c s' => (Ascii.nat_of_ascii c <? 128)%nat && is_ascii s'
  end.

(** A carrier over a [META] with one entry that is a header and one that is
    not. *)
Definition ex_carrier : _DjangoMetaWrapper :=
  mkMetaWrapper {[ "CONTENT_TYPE" := "text/plain"; "HTTP_X_TRACE" := "abc" ]}.

(** The database calls among the events of a request: how many there are, and
    what they do to the database when they are made one after the other
    without the wrapper. *)
Fixpoint count_queries (evs : list Event) : nat :=
  match evs with
  | [] => 0%nat
  | EQuery _ _ _ _ _ :: rest => S (count_queries rest)
  | _ :: rest => count_queries rest
  end.

Fixpoint run_queries (evs : list Event) (d : Database) : Database :=
  match evs with
  | [] => d
  | EQuery execute sql params many context :: rest =>
      run_queries rest (snd (execute sql params many context d))
  | _ :: rest => run_queries rest d
  end.

(** What a request that started in [w0] and has made [k] database calls has
    left in the world [w]: the spans and tracers of [w0] are a prefix of the
    stores, which hold one tracer and [1 + k] spans more; the [k] child spans
    are the finished spans of the tracer, in the order of the calls, each
    closed once; nothing was logged or exported. *)
Definition request_footprint (w0 : World) (k : nat) (w : World) : Prop :=
  take (length (spans w0)) (spans w) = spans w0 /\
  length (spans w) = (length (spans w0) + 1 + k)%nat /\
  take (length (tracers w0)) (tracers w) = tracers w0 /\
  length (tracers w) = S (length (tracers w0)) /\
  finished_spans <$> tracers w !! length (tracers w0) =
    Some (seq (S (length (spans w0))) k) /\
  (forall i sp, (length (spans w0) < i)%nat -> spans w !! i = Some sp ->
                end_count sp = 1%nat) /\
  exported w = exported w0 /\
  error_log w = error_log w0.

(** The world after [ex_request] has been served once, from start to end. *)
Definition ex_served_world : World :=
  snd (process_response startswith_any ex_middleware ex_request ex_response
         ex_traced_world).

(** The hooks and the events of one request, in the order the framework runs
    them. *)
Definition serve (dtu : string -> option (list string) -> bool)
    (self : OpencensusMiddleware) (request : HttpRequest) (evs : list Event)
    (response : HttpResponse) : M HttpResponse :=
  process_request dtu self request ;;;
  run_events dtu self request evs ;;;
  process_response dtu self request response.

(** Two counters of the span store: how many spans were ever opened, and how
    many times a span was closed, all spans together. *)
Definition span_count (w : World) : nat := length (spans w).
Definition total_closes (w : World) : nat := sum_list_with end_count (spans w).

(** [grows f n m]: whatever the outcome of [m], the counter [f] does not
    decrease and increases by [n] at most. *)
Definition grows {A} (f : World -> nat) (n : nat) (m : M A) : Prop :=
  forall w, (f w <= f (snd (m w)) <= f w + n)%nat.

(** ** Tactics *)

Ltac world_simpl :=
  lazy beta iota delta
    [attrs tracer_slot tracers spans error_log exported database exc_info
     faults set_attrs set_tracer_slot set_tracers set_spans set_error_log
     set_exported set_database set_faults request_recorded];
  unfold with_open_spans, with_finished;
  cbn [span_context tr_sampler tr_exporter tr_propagator open_spans
       finished_spans].
Ltac open_world w :=
  destruct w as [? ? ? ? ? ? ? ? ?];
  cbn [attrs tracer_slot tracers spans error_log exported database exc_info
       faults] in *;
  subst.

Create HintDb frame discriminated.

Section Rules.
Context {A B : Type}.

Lemma wp_ret (a : A) Q E w : Q a w -> wp (ret a) Q E w.
Proof. exact id. Qed.

Lemma wp_raise (e : PyException) (Q : A -> World -> Prop) E w :
  E e w -> wp (raise e) Q E w.
Proof. exact id. Qed.

Lemma wp_bind (m : M A) (k : A -> M B) Q E w :
  wp m (fun a => wp (k a) Q E) E w -> wp (bind m k) Q E w.
Proof. unfold wp, bind. destruct (m w) as [[a|e] w']; exact id. Qed.

Lemma wp_try_except (m : M A) h Q E w :
  wp m Q (fun e => wp (h e) Q E) w -> wp (try_except m h) Q E w.
Proof. unfold wp, try_except. destruct (m w) as [[a|e] w']; exact id. Qed.

Lemma wp_try_finally (m : M A) fin Q E w :
  wp m (fun a => wp fin (fun _ => Q a) E) (fun e => wp fin (fun _ => E e) E) w ->
  wp (try_finally m fin) Q E w.
Proof.
  unfold wp, try_finally. destruct (m w) as [[a|e] w'];
    destruct (fin w') as [[[]|e'] w'']; exact id.
Qed.

Lemma wp_finally_return (m : M A) (v : B) Q E w :
  wp m (fun _ => Q v) (fun _ => Q v) w -> wp (finally_return m v) Q E w.
Proof. unfold wp, finally_return. destruct (m w) as [[a|e] w']; exact id. Qed.

Context {C : Type} (f : World -> C).

Lemma stable_ret (a : A) : stable f (ret a).
Proof. intros w. reflexivity. Qed.

Lemma stable_raise (e : PyException) : stable f (raise (A:=A) e).
Proof. intros w. reflexivity. Qed.

Lemma stable_bind (m : M A) (k : A -> M B) :
  stable f m -> (forall a, stable f (k a)) -> stable f (bind m k).
Proof.
  intros Hm Hk w. specialize (Hm w). unfold bind.
  destruct (m w) as [[a|e] w']; simpl in *; [|done].
  rewrite <- Hm. apply Hk.
Qed.

Lemma stable_try_except (m : M A) h :
  stable f m -> (forall e, stable f (h e)) -> stable f (try_except m h).
Proof.
  intros Hm Hh w. specialize (Hm w). unfold try_except.
  destruct (m w) as [[a|e] w']; simpl in *; [done|].
  rewrite <- Hm. apply Hh.
Qed.

Lemma stable_try_finally (m : M A) fin :
  stable f m -> stable f fin -> stable f (try_finally m fin).
Proof.
  intros Hm Hfin w. specialize (Hm w). unfold try_finally.
  destruct (m w) as [o w']; simpl in *. specialize (Hfin w').
  destruct (fin w') as [[[]|e'] w'']; simpl in *; congruence.
Qed.

Lemma stable_finally_return (m : M A) (v : B) :
  stable f m -> stable f (finally_return m v).
Proof. intros Hm w. apply Hm. Qed.

End Rules.

Section Frames.
Context {B : Type} (f : World -> B).

Lemma stable_collaborator : ignores f set_faults -> stable f collaborator.
Proof.
  intros Hf w. unfold collaborator.
  destruct (faults w) as [|[] fs]; simpl; auto.
Qed.

Lemma stable_log_error msg : ignores f set_error_log -> stable f (log_error msg).
Proof. intros Hf w. apply Hf. Qed.

Lemma stable_get_opencensus_attr k : stable f (get_opencensus_attr k).
Proof. intros w. reflexivity. Qed.

Lemma stable_set_opencensus_attr k v :
  ignores f set_attrs -> stable f (set_opencensus_attr k v).
Proof. intros Hf w. apply Hf. Qed.

Lemma stable_get_opencensus_tracer : stable f get_opencensus_tracer.
Proof. intros w. reflexivity. Qed.

Lemma stable_sys_exc_info_tb : stable f sys_exc_info_tb.
Proof. intros w. reflexivity. Qed.

Lemma stable_update_span s g : ignores f set_spans -> stable f (update_span s g).
Proof.
  intros Hf w. unfold update_span. destruct (spans w !! s); simpl; auto.
Qed.

Lemma stable_call execute sql params many context :
  ignores f set_database -> stable f (call execute sql params many context).
Proof.
  intros Hf w. unfold call.
  destruct (execute sql params many context (database w)); simpl; auto.
Qed.

Lemma stable_tracer_call {A} tracer (k : nat -> Tracer -> M A) :
  ignores f set_faults -> (forall t T, stable f (k t T)) ->
  stable f (tracer_call tracer k).
Proof.
  intros Hf Hk. unfold tracer_call. destruct tracer as [t|]; [|apply stable_raise].
  apply stable_bind; [by apply stable_collaborator|].
  intros _ w. destruct (tracers w !! t) as [T|]; [apply Hk|done].
Qed.

Lemma stable_Tracer_init sc sa ex pr :
  ignores f set_faults -> ignores f set_tracers -> ignores f set_tracer_slot ->
  stable f (Tracer_init sc sa ex pr).
Proof.
  intros Hf Ht Hs. apply stable_bind; [by apply stable_collaborator|].
  intros _ w. simpl. by rewrite Hs, Ht.
Qed.

Lemma stable_start_span tracer :
  ignores f set_faults -> ignores f set_tracers -> ignores f set_spans ->
  stable f (start_span tracer).
Proof.
  intros Hf Ht Hs. apply stable_tracer_call; [done|].
  intros t T w. simpl. by rewrite Ht, Hs.
Qed.

Lemma stable_current_span tracer :
  ignores f set_faults -> stable f (current_span tracer).
Proof. intros Hf. apply stable_tracer_call; [done|]. intros t T w. done. Qed.

Lemma stable_add_attribute_to_current_span tracer k v :
  ignores f set_faults -> ignores f set_spans ->
  stable f (add_attribute_to_current_span tracer k v).
Proof.
  intros Hf Hs. apply stable_tracer_call; [done|]. intros t T.
  destruct (open_spans T); [apply stable_raise|by apply stable_update_span].
Qed.

Lemma stable_end_span tracer :
  ignores f set_faults -> ignores f set_tracers -> ignores f set_spans ->
  stable f (end_span tracer).
Proof.
  intros Hf Ht Hs. apply stable_tracer_call; [done|]. intros t T.
  destruct (open_spans T); [apply stable_ret|].
  apply stable_bind; [by apply stable_update_span|]. intros _ w. apply Ht.
Qed.

Lemma stable_finish tracer :
  ignores f set_faults -> ignores f set_exported -> stable f (finish tracer).
Proof.
  intros Hf He. apply stable_tracer_call; [done|]. intros t T w. apply He.
Qed.

End Frames.

#[export] Hint Resolve stable_ret stable_raise stable_bind stable_try_except
  stable_try_finally stable_finally_return stable_collaborator stable_log_error
  stable_get_opencensus_attr stable_set_opencensus_attr
  stable_get_opencensus_tracer stable_sys_exc_info_tb stable_update_span
  stable_call stable_Tracer_init stable_start_span stable_current_span
  stable_add_attribute_to_current_span stable_end_span stable_finish : frame.
#[export] Hint Extern 1 (ignores _ _) => (intros ? ?; reflexivity) : frame.
#[export] Hint Extern 2 (stable _ (match ?x with _ => _ end)) => destruct x : frame.
#[export] Hint Extern 2 (stable _ (if ?x then _ else _)) => destruct x : frame.

Ltac unfold_middleware :=
  unfold process_request, process_request_tracing, process_view,
    process_view_tracing, process_response, process_response_tracing,
    process_exception, process_exception_tracing, _trace_db_call,
    _set_django_attributes, _DjangoMetaWrapper_init, get_META,
    _get_django_request, _get_django_span, _get_current_tracer,
    add_attribute, set_status, span_call, span_assign, get_host,
    build_absolute_uri, get_username, get_func_name, propagator_from_headers,
    format_tb.

Ltac frame := intros; unfold_middleware; eauto 80 with frame.

(** No hook touches the database, and the tracing steps never write the log. *)
Lemma hooks_leave_database dtu self request view_func response exception :
  stable database (process_request dtu self request) /\
  stable database (process_view dtu self request view_func) /\
  stable database (process_response dtu self request response) /\
  stable database (process_exception dtu self request exception).
Proof. repeat split; frame. Qed.

Lemma wp_stable {A C} (f : World -> C) (m : M A) (c : C) Q E w :
  stable f m -> f w = c ->
  (forall a w', f w' = c -> Q a w') ->
  (forall e w', f w' = c -> E e w') ->
  wp m Q E w.
Proof.
  intros Hm Hc HQ HE. unfold wp. specialize (Hm w).
  destruct (m w) as [[a|e] w']; simpl in *; [apply HQ|apply HE]; congruence.
Qed.

(** [try: body  except Exception: log.error(...)] returns normally; it writes
    one log record when the body raised and none otherwise. *)
Lemma guarded_outcome (body : M unit) w :
  fst (try_except body (fun _ => log_error failed_to_trace) w) = Ret tt.
Proof. unfold try_except. by destruct (body w) as [[[]|e] w']. Qed.

Lemma try_except_Ret {A} (m : M A) h w a w' :
  m w = (Ret a, w') -> try_except m h w = (Ret a, w').
Proof. intros Hm. unfold try_except. by rewrite Hm. Qed.

Lemma try_except_Raise {A} (m : M A) h w e w' :
  m w = (Raise e, w') -> try_except m h w = h e w'.
Proof. intros Hm. unfold try_except. by rewrite Hm. Qed.

Lemma guarded_log (body : M unit) w :
  stable error_log body ->
  error_log (snd (try_except body (fun _ => log_error failed_to_trace) w)) =
  (error_log w ++ if raised (fst (body w)) then [failed_to_trace] else [])%list.
Proof.
  intros Hb. specialize (Hb w). unfold try_except.
  destruct (body w) as [[[]|e] w']; simpl in *.
  - by rewrite app_nil_r.
  - by rewrite Hb.
Qed.

Lemma process_request_unfold dtu self request w :
  dtu (path request) (excludelist_paths self) = false ->
  process_request dtu self request w =
  try_except (process_request_tracing self request)
             (fun _ => log_error failed_to_trace)
             (request_recorded self request w).
Proof. intros Hx. unfold process_request. by rewrite Hx. Qed.

Lemma process_request_tracing_attrs self request w :
  wp (process_request_tracing self request)
     (fun _ w' => exists span, attrs w' = <[SPAN_THREAD_LOCAL_KEY := span]> (attrs w))
     (fun _ w' => attrs w' = attrs w) w.
Proof.
  unfold process_request_tracing.
  do 14 (apply wp_bind;
         eapply (wp_stable attrs); [frame | eassumption || reflexivity | | done];
         intros ? ? ?).
  unfold wp, set_opencensus_attr. world_simpl. eexists. by f_equal.
Qed.

(** ** Primitive steps when no collaborator fails *)

Section Steps.
Context {A : Type} (Q : A -> World -> Prop) (E : PyException -> World -> Prop).

Lemma wp_get_opencensus_attr k (Q' : Value -> World -> Prop) w :
  Q' (default VNone (attrs w !! k)) w -> wp (get_opencensus_attr k) Q' E w.
Proof. exact id. Qed.

Lemma wp_set_opencensus_attr k v (Q' : unit -> World -> Prop) w :
  Q' tt (set_attrs (insert k v) w) -> wp (set_opencensus_attr k v) Q' E w.
Proof. exact id. Qed.

Lemma wp_get_opencensus_tracer (Q' : option nat -> World -> Prop) w :
  Q' (tracer_slot w) w -> wp get_opencensus_tracer Q' E w.
Proof. exact id. Qed.

Lemma wp_collaborator (Q' : unit -> World -> Prop) w :
  faults w = [] -> Q' tt w -> wp collaborator Q' E w.
Proof. intros Hf HQ. unfold wp, collaborator. by rewrite Hf. Qed.

Lemma wp_collaborator_then (m : M A) w :
  faults w = [] -> wp m Q E w -> wp (collaborator ;;; m) Q E w.
Proof. intros Hf Hm. apply wp_bind. by apply wp_collaborator. Qed.

Lemma wp_update_span s g sp (Q' : unit -> World -> Prop) w :
  spans w !! s = Some sp ->
  Q' tt (set_spans (fun l => <[s := g sp]> l) w) ->
  wp (update_span s g) Q' E w.
Proof. intros Hs HQ. unfold wp, update_span. by rewrite Hs. Qed.

Lemma wp_span_assign s g sp (Q' : unit -> World -> Prop) w :
  spans w !! s = Some sp ->
  Q' tt (set_spans (fun l => <[s := g sp]> l) w) ->
  wp (span_assign (VSpan s) g) Q' E w.
Proof. apply wp_update_span. Qed.

Lemma wp_span_call s g sp (Q' : unit -> World -> Prop) w :
  faults w = [] -> spans w !! s = Some sp ->
  Q' tt (set_spans (fun l => <[s := g sp]> l) w) ->
  wp (span_call (VSpan s) g) Q' E w.
Proof.
  intros Hf Hs HQ. apply wp_bind, wp_collaborator; [done|].
  by eapply wp_update_span.
Qed.

Lemma wp_tracer_call t T (k : nat -> Tracer -> M A) w :
  faults w = [] -> tracers w !! t = Some T ->
  wp (k t T) Q E w -> wp (tracer_call (Some t) k) Q E w.
Proof.
  intros Hf Ht Hk. apply wp_bind, wp_collaborator; [done|].
  unfold wp in *. by rewrite Ht.
Qed.

Lemma wp_call execute sql params many context (Q' : Rows -> World -> Prop) w :
  match execute sql params many context (database w) with
  | (Ret rows, d) => Q' rows (set_database d w)
  | (Raise e, d) => E e (set_database d w)
  end ->
  wp (call execute sql params many context) Q' E w.
Proof.
  unfold wp, call.
  by destruct (execute sql params many context (database w)) as [[rows|e] d].
Qed.

End Steps.

Lemma wp_add_attribute s k v sp Q E w :
  faults w = [] -> spans w !! s = Some sp ->
  Q tt (set_spans (fun l => <[s := with_attribute k v sp]> l) w) ->
  wp (add_attribute (VSpan s) k v) Q E w.
Proof. apply wp_span_call. Qed.

Lemma wp_set_status s st sp Q E w :
  faults w = [] -> spans w !! s = Some sp ->
  Q tt (set_spans (fun l => <[s := with_status st sp]> l) w) ->
  wp (set_status (VSpan s) st) Q E w.
Proof. apply wp_span_call. Qed.

Lemma wp_Tracer_init sc sa ex pr Q E w :
  faults w = [] ->
  Q (Some (length (tracers w)))
    (set_tracer_slot (Some (length (tracers w)))
       (set_tracers (fun l => l ++ [mkTracer sc sa ex pr [] []]) w)) ->
  wp (Tracer_init sc sa ex pr) Q E w.
Proof. intros Hf HQ. apply wp_bind, wp_collaborator; done. Qed.

Lemma wp_start_span t T Q E w :
  faults w = [] -> tracers w !! t = Some T ->
  Q (VSpan (length (spans w)))
    (set_tracers (fun l => <[t := with_open_spans (length (spans w) :: open_spans T) T]> l)
       (set_spans (fun l => l ++ [new_span (head (open_spans T))]) w)) ->
  wp (start_span (Some t)) Q E w.
Proof. intros Hf Ht HQ. by eapply wp_tracer_call. Qed.

Lemma wp_current_span t T Q E w :
  faults w = [] -> tracers w !! t = Some T ->
  Q (match open_spans T with s :: _ => VSpan s | [] => VNone end) w ->
  wp (current_span (Some t)) Q E w.
Proof. intros Hf Ht HQ. by eapply wp_tracer_call. Qed.

Lemma wp_add_attribute_to_current_span t T s rest sp k v Q E w :
  faults w = [] -> tracers w !! t = Some T -> open_spans T = s :: rest ->
  spans w !! s = Some sp ->
  Q tt (set_spans (fun l => <[s := with_attribute k v sp]> l) w) ->
  wp (add_attribute_to_current_span (Some t) k v) Q E w.
Proof.
  intros Hf Ht Ho Hs HQ. eapply wp_tracer_call; [done..|].
  rewrite Ho. by eapply wp_update_span.
Qed.

Lemma wp_end_span t T s rest sp Q E w :
  faults w = [] -> tracers w !! t = Some T -> open_spans T = s :: rest ->
  spans w !! s = Some sp ->
  Q tt (set_tracers (fun l =>
          <[t := with_finished (finished_spans T ++ [s]) (with_open_spans rest T)]> l)
          (set_spans (fun l => <[s := closed sp]> l) w)) ->
  wp (end_span (Some t)) Q E w.
Proof.
  intros Hf Ht Ho Hs HQ. eapply wp_tracer_call; [done..|].
  rewrite Ho. apply wp_bind. by eapply wp_update_span.
Qed.

Lemma wp_finish t T Q E w :
  faults w = [] -> tracers w !! t = Some T ->
  Q tt (set_exported (fun l => l ++ [finished_spans T]) w) ->
  wp (finish (Some t)) Q E w.
Proof. intros Hf Ht HQ. by eapply wp_tracer_call. Qed.

Lemma wp_get_host request Q E w :
  faults w = [] -> Q (host request) w -> wp (get_host request) Q E w.
Proof. intros. by apply wp_collaborator_then. Qed.

Lemma wp_build_absolute_uri request Q E w :
  faults w = [] -> Q (absolute_uri request) w -> wp (build_absolute_uri request) Q E w.
Proof. intros. by apply wp_collaborator_then. Qed.

Lemma wp_get_username django_user Q E w :
  faults w = [] -> Q (username django_user) w -> wp (get_username django_user) Q E w.
Proof. intros. by apply wp_collaborator_then. Qed.

Lemma wp_get_func_name view_func Q E w :
  faults w = [] -> Q (func_name view_func) w -> wp (get_func_name view_func) Q E w.
Proof. intros. by apply wp_collaborator_then. Qed.

Lemma wp_format_tb tb Q E w :
  faults w = [] -> Q tb w -> wp (format_tb tb) Q E w.
Proof. intros. by apply wp_collaborator_then. Qed.

Lemma wp_propagator_from_headers p get Q E w :
  faults w = [] -> Q (from_headers p get) w -> wp (propagator_from_headers p get) Q E w.
Proof. intros. by apply wp_collaborator_then. Qed.

Lemma wp_run {A} (m : M A) (r : Outcome A * World) w :
  wp m (fun a w' => r = (Ret a, w')) (fun e w' => r = (Raise e, w')) w -> m w = r.
Proof. unfold wp. by destruct (m w) as [[a|e] w']. Qed.

Lemma set_spans_same s sp w :
  spans w !! s = Some sp -> set_spans (fun l => <[s := sp]> l) w = w.
Proof.
  intros Hs. destruct w. unfold set_spans. simpl in *. f_equal.
  by apply list_insert_id.
Qed.

Lemma set_spans_twice s a b w :
  set_spans (fun l => <[s := b]> l) (set_spans (fun l => <[s := a]> l) w) =
  set_spans (fun l => <[s := b]> l) w.
Proof. unfold set_spans. simpl. f_equal. apply list_insert_insert_eq. Qed.

Lemma lookup_updated {X} (l : list X) s x y :
  l !! s = Some x -> <[s := y]> l !! s = Some y.
Proof. intros Hs. apply list_lookup_insert_eq. by eapply lookup_lt_Some. Qed.

Lemma lookup_appended {X} (l : list X) x : (l ++ [x]) !! length l = Some x.
Proof. by apply list_lookup_middle. Qed.

Lemma insert_appended {X} (l : list X) x y : <[length l := y]> (l ++ [x]) = l ++ [y].
Proof.
  rewrite insert_app_r_alt by lia. by rewrite Nat.sub_diag.
Qed.

Ltac look :=
  first [ eassumption | apply lookup_appended | eapply lookup_updated; look ].
Ltac side := world_simpl; first [ eassumption | reflexivity | look ].
Tactic Notation "step" uconstr(lem) :=
  apply wp_bind; eapply lem; [side..|]; world_simpl.
Tactic Notation "last_step" uconstr(lem) :=
  eapply lem; [side..|]; world_simpl.

Lemma wp__set_django_attributes s sp request Q E w :
  faults w = [] -> spans w !! s = Some sp ->
  Q tt (set_spans (fun l => <[s := with_user (user request) sp]> l) w) ->
  wp (_set_django_attributes (VSpan s) request) Q E w.
Proof.
  intros Hf Hs HQ. unfold _set_django_attributes, with_user in *.
  destruct (user request) as [[[i|] [n|]]|]; simpl in *.
  - apply wp_bind, wp_get_username; [done|]. simpl.
    apply wp_bind. eapply wp_add_attribute; [side..|].
    eapply wp_add_attribute; [side..|]. by rewrite set_spans_twice.
  - apply wp_bind, wp_get_username; [done|]. simpl.
    apply wp_bind. eapply wp_add_attribute; [side..|]. by apply wp_ret.
  - apply wp_bind, wp_get_username; [done|]. simpl.
    apply wp_bind, wp_ret. by eapply wp_add_attribute.
  - apply wp_bind, wp_get_username; [done|]. simpl.
    apply wp_bind, wp_ret, wp_ret. by rewrite set_spans_same in HQ.
  - apply wp_ret. by rewrite set_spans_same in HQ.
Qed.

Lemma wp_traceback exception (Q : list string -> World -> Prop) E w :
  Q (traceback_of exception w) w ->
  wp (match exc_traceback exception with
      | Some tb => ret tb
      | None => sys_exc_info_tb
      end) Q E w.
Proof. unfold traceback_of. by destruct (exc_traceback exception). Qed.

Lemma process_exception_run dtu self request exception r sp w :
  dtu (path request) (excludelist_paths self) = false ->
  faults w = [] ->
  attrs w !! SPAN_THREAD_LOCAL_KEY = Some (VSpan r) ->
  spans w !! r = Some sp ->
  process_exception dtu self request exception w =
  (Ret tt,
   set_spans (fun l => <[r := with_user (user request)
                              (with_exception exception (traceback_of exception w) sp)]> l) w).
Proof.
  intros Hx Hf Ha Hs. apply wp_run. unfold process_exception. rewrite Hx.
  apply wp_try_except, wp_bind, wp_traceback.
  apply wp_bind, wp_get_opencensus_attr. rewrite Ha. cbn [default from_option id].
  generalize (traceback_of exception w). intros tb. open_world w.
  step wp_add_attribute.
  step wp_add_attribute.
  step wp_format_tb.
  step wp_add_attribute.
  last_step wp__set_django_attributes.
  unfold with_exception. by rewrite !list_insert_insert_eq.
Qed.

Lemma process_view_run dtu self request view_func t T s rest sp w :
  dtu (path request) (excludelist_paths self) = false ->
  faults w = [] ->
  tracer_slot w = Some t -> tracers w !! t = Some T -> open_spans T = s :: rest ->
  spans w !! s = Some sp ->
  process_view dtu self request view_func w =
  (Ret tt, set_spans (fun l => <[s := with_name (func_name view_func) sp]> l) w).
Proof.
  intros Hx Hf Hslot Ht Ho Hs. open_world w. apply wp_run. unfold process_view. rewrite Hx.
  apply wp_try_except, wp_bind, wp_get_opencensus_tracer. world_simpl.
  step wp_current_span. rewrite Ho.
  step wp_get_func_name.
  by last_step wp_span_assign.
Qed.

Lemma process_response_run dtu self request response t T r rest sp w :
  dtu (path request) (excludelist_paths self) = false ->
  faults w = [] ->
  attrs w !! SPAN_THREAD_LOCAL_KEY = Some (VSpan r) ->
  spans w !! r = Some sp ->
  tracer_slot w = Some t -> tracers w !! t = Some T -> open_spans T = r :: rest ->
  process_response dtu self request response w =
  (Ret response,
   set_exported (fun l => l ++ [finished_spans T ++ [r]])
     (set_tracers (fun l =>
        <[t := with_finished (finished_spans T ++ [r]) (with_open_spans rest T)]> l)
        (set_spans (fun l => <[r := closed (with_response request response sp)]> l) w))).
Proof.
  intros Hx Hf Ha Hs Hslot Ht Ho. open_world w. apply wp_run. unfold process_response. rewrite Hx.
  apply wp_finally_return, wp_try_except.
  apply wp_bind, wp_get_opencensus_attr. world_simpl. rewrite Ha.
  cbn [default from_option id].
  step wp_add_attribute.
  step wp__set_django_attributes.
  apply wp_bind, wp_get_opencensus_tracer. world_simpl.
  step wp_end_span.
  last_step wp_finish.
  unfold with_response. world_simpl.
  by rewrite !list_insert_insert_eq.
Qed.

Lemma request_recorded_request self request w :
  attrs (request_recorded self request w) !! REQUEST_THREAD_LOCAL_KEY =
  Some (VRequest request).
Proof.
  world_simpl. rewrite lookup_insert_ne by done. apply lookup_insert_eq.
Qed.

Lemma request_recorded_hostnames self request w :
  attrs (request_recorded self request w) !! "excludelist_hostnames" =
  Some (python_none_or_list (excludelist_hostnames self)).
Proof. world_simpl. apply lookup_insert_eq. Qed.

Lemma wp__DjangoMetaWrapper_init self request Q E w :
  Q (mkMetaWrapper (META request)) (request_recorded self request w) ->
  wp (_DjangoMetaWrapper_init (META request)) Q E (request_recorded self request w).
Proof.
  intros HQ. unfold _DjangoMetaWrapper_init.
  destruct (decide (META request = ∅)); [|by apply wp_ret].
  apply wp_bind, wp_get_opencensus_attr.
  rewrite request_recorded_request. cbn [default from_option id].
  by apply wp_bind, wp_ret, wp_ret.
Qed.

Lemma process_request_run dtu self request w :
  dtu (path request) (excludelist_paths self) = false ->
  faults w = [] ->
  process_request dtu self request w = (Ret tt, request_opened self request w).
Proof.
  intros Hx Hf. open_world w. rewrite process_request_unfold by done. apply wp_run.
  apply wp_try_except. unfold process_request_tracing.
  apply wp_bind, wp_get_opencensus_attr.
  rewrite request_recorded_request. cbn [default from_option id].
  apply wp_bind, wp_ret.
  apply wp_bind, wp__DjangoMetaWrapper_init.
  step wp_propagator_from_headers.
  step wp_Tracer_init.
  step wp_start_span.
  step wp_span_assign.
  step wp_get_host.
  step wp_add_attribute_to_current_span.
  step wp_add_attribute_to_current_span.
  step wp_add_attribute_to_current_span.
  step wp_add_attribute_to_current_span.
  step wp_build_absolute_uri.
  step wp_add_attribute_to_current_span.
  apply wp_set_opencensus_attr.
  unfold request_opened, request_tracer, root_span, decoded_context.
  world_simpl. by rewrite !list_insert_insert_eq, !insert_appended.
Qed.

Lemma _trace_db_call_run execute sql params many context t T w :
  faults w = [] -> tracer_slot w = Some t -> tracers w !! t = Some T ->
  _trace_db_call execute sql params many context w =
  match execute sql params many context (database w) with
  | (Ret rows, d) =>
      (Ret rows, query_traced t T (query_span sql context (head (open_spans T))) d w)
  | (Raise e, d) =>
      (Raise e,
       query_traced t T
         (with_status db_error (query_span sql context (head (open_spans T)))) d w)
  end.
Proof.
  intros Hf Hslot Ht. open_world w. apply wp_run. unfold _trace_db_call.
  apply wp_bind, wp_get_opencensus_tracer. world_simpl.
  step wp_start_span.
  step wp_span_assign.
  step wp_span_assign.
  step wp_add_attribute_to_current_span.
  step wp_add_attribute_to_current_span.
  step wp_add_attribute_to_current_span.
  step wp_add_attribute_to_current_span.
  apply wp_try_finally, wp_try_except, wp_call. world_simpl.
  destruct (execute _ _ _ _ _) as [[rows|e] d].
  - last_step wp_end_span.
    unfold query_traced, query_span. world_simpl.
    rewrite !list_insert_insert_eq, !insert_appended. by destruct T.
  - step wp_set_status. apply wp_raise.
    last_step wp_end_span.
    unfold query_traced, query_span. world_simpl.
    rewrite !list_insert_insert_eq, !insert_appended. by destruct T.
Qed.

(** ** The hooks on an excluded path *)

(** C3: on a request whose path is excluded, each of the four hooks returns
    at once and leaves the world as it found it, whatever that world is: no
    span, no entry of the context store, the response as given. The decision
    is taken from the path in every hook, from nothing kept in the world. *)
Theorem excluded_path_hooks_are_noops dtu self request :
  dtu (path request) (excludelist_paths self) = true ->
  (forall w, process_request dtu self request w = (Ret tt, w)) /\
  (forall view_func w, process_view dtu self request view_func w = (Ret tt, w)) /\
  (forall response w,
     process_response dtu self request response w = (Ret response, w)) /\
  (forall exception w,
     process_exception dtu self request exception w = (Ret tt, w)).
Proof.
  intros Hx. unfold process_request, process_view, process_response,
    process_exception. rewrite Hx. done.
Qed.

Lemma excluded_path_hooks_are_noops_witness :
  startswith_any (path ex_health_request) (excludelist_paths ex_middleware) = true /\
  process_request startswith_any ex_middleware ex_health_request ex_world =
    (Ret tt, ex_world) /\
  process_response startswith_any ex_middleware ex_health_request ex_response ex_world =
    (Ret ex_response, ex_world).
Proof.
  assert (Hx : startswith_any (path ex_health_request)
                 (excludelist_paths ex_middleware) = true) by reflexivity.
  destruct (excluded_path_hooks_are_noops startswith_any ex_middleware
              ex_health_request Hx) as (H1 & _ & H3 & _).
  split; [exact Hx|]. split; [apply H1|apply H3].
Defined.

(** ** The database wrapper without a tracer *)

(** C5: when the execution context holds no tracer, [_trace_db_call] is the
    wrapped call: the same result or exception, and a world that differs
    from the initial one by what the call did to the database only. *)
Theorem inactive_tracer_db_call_is_transparent execute sql params many context w :
  tracer_slot w = None ->
  _trace_db_call execute sql params many context w =
    call execute sql params many context w /\
  fst (_trace_db_call execute sql params many context w) =
    fst (execute sql params many context (database w)) /\
  snd (_trace_db_call execute sql params many context w) =
    set_database (snd (execute sql params many context (database w))) w.
Proof.
  intros Hslot.
  assert (Heq : _trace_db_call execute sql params many context w =
                call execute sql params many context w).
  { unfold _trace_db_call, bind, _get_current_tracer, get_opencensus_tracer.
    by rewrite Hslot. }
  rewrite Heq. unfold call.
  by destruct (execute sql params many context (database w)).
Qed.

Lemma inactive_tracer_db_call_is_transparent_witness :
  tracer_slot ex_world = None /\
  fst (_trace_db_call ex_failing "SELECT 1" [] false ex_context ex_world) =
    Raise ex_boom.
Proof.
  split; [reflexivity|].
  destruct (inactive_tracer_db_call_is_transparent ex_failing "SELECT 1" [] false
              ex_context ex_world eq_refl) as (_ & H & _).
  exact H.
Defined.

(** ** Failures of the instrumentation inside the hooks *)

Lemma tracing_blocks_leave_log self request view_func response exception :
  stable error_log (process_request_tracing self request) /\
  stable error_log (process_view_tracing view_func) /\
  stable error_log (process_response_tracing request response) /\
  stable error_log (process_exception_tracing request exception).
Proof. repeat split; frame. Qed.

Lemma process_response_outcome dtu self request response w :
  fst (process_response dtu self request response w) = Ret response.
Proof.
  unfold process_response.
  by destruct (dtu (path request) (excludelist_paths self)).
Qed.

Lemma process_response_log dtu self request response w :
  error_log (snd (process_response dtu self request response w)) =
    (error_log w ++
     failure_records (dtu (path request) (excludelist_paths self))
       (fst (process_response_tracing request response w)))%list.
Proof.
  unfold process_response, failure_records.
  destruct (dtu (path request) (excludelist_paths self)).
  - simpl. by rewrite app_nil_r.
  - unfold finally_return. cbn [snd]. apply guarded_log.
    apply (tracing_blocks_leave_log self request ex_view response ex_boom).
Qed.

(** C7: [process_response] returns the response it was given from every
    world and under every schedule of collaborator failures; when the
    tracing block raises, the exception ends as one log record. *)
Theorem process_response_always_returns_response dtu self request response w :
  fst (process_response dtu self request response w) = Ret response /\
  error_log (snd (process_response dtu self request response w)) =
    (error_log w ++
     failure_records (dtu (path request) (excludelist_paths self))
       (fst (process_response_tracing request response w)))%list.
Proof.
  split; [apply process_response_outcome|apply process_response_log].
Qed.

Lemma failed_request_tracing_entries dtu self request w :
  dtu (path request) (excludelist_paths self) = false ->
  fst (process_request dtu self request w) = Ret tt /\
  attrs (snd (process_request dtu self request w)) !! REQUEST_THREAD_LOCAL_KEY =
    Some (VRequest request) /\
  attrs (snd (process_request dtu self request w)) !! "excludelist_hostnames" =
    Some (python_none_or_list (excludelist_hostnames self)).
Proof.
  intros Hx. rewrite process_request_unfold by done.
  split; [apply guarded_outcome|].
  set (w0 := request_recorded self request w).
  pose proof (process_request_tracing_attrs self request w0) as Hwp.
  unfold wp in Hwp.
  destruct (process_request_tracing self request w0) as [[[]|e] w1] eqn:Hrun.
  - rewrite (try_except_Ret _ _ _ _ _ Hrun). cbn [snd].
    destruct Hwp as [span ->]. rewrite !lookup_insert_ne by done. subst w0.
    by rewrite request_recorded_request, request_recorded_hostnames.
  - rewrite (try_except_Raise _ _ _ _ _ Hrun).
    change (attrs (log_error failed_to_trace w1).2) with (attrs w1).
    rewrite Hwp. subst w0.
    by rewrite request_recorded_request, request_recorded_hostnames.
Qed.

(** C10: on a request whose path is not excluded, [process_request] returns
    normally and the context store holds the request and the host name
    patterns; when the tracing block raises, the store is exactly the store
    before the hook with these two entries written, so no span entry was
    written and the two entries stay, and the failure is one log record. *)
Theorem failed_request_tracing_keeps_request_entries dtu self request w :
  dtu (path request) (excludelist_paths self) = false ->
  let w' := snd (process_request dtu self request w) in
  fst (process_request dtu self request w) = Ret tt /\
  attrs w' !! REQUEST_THREAD_LOCAL_KEY = Some (VRequest request) /\
  attrs w' !! "excludelist_hostnames" =
    Some (python_none_or_list (excludelist_hostnames self)) /\
  (raised (fst (process_request_tracing self request
                  (request_recorded self request w))) = true ->
   attrs w' = attrs (request_recorded self request w) /\
   attrs w' !! SPAN_THREAD_LOCAL_KEY = attrs w !! SPAN_THREAD_LOCAL_KEY /\
   error_log w' = (error_log w ++ [failed_to_trace])%list).
Proof.
  intros Hx w'. subst w'. rewrite process_request_unfold by done.
  split; [apply guarded_outcome|].
  set (w0 := request_recorded self request w).
  pose proof (process_request_tracing_attrs self request w0) as Hwp.
  pose proof (guarded_log (process_request_tracing self request) w0) as Hlog.
  assert (Hw0 : error_log w0 = error_log w) by reflexivity.
  unfold wp in Hwp.
  destruct (process_request_tracing self request w0) as [[[]|e] w1] eqn:Hrun.
  - rewrite (try_except_Ret _ _ _ _ _ Hrun). cbn [fst snd raised].
    destruct Hwp as [span ->]. rewrite !lookup_insert_ne by done. subst w0.
    by rewrite request_recorded_request, request_recorded_hostnames.
  - rewrite Hlog by apply (tracing_blocks_leave_log self request ex_view
                             ex_response ex_boom).
    rewrite (try_except_Raise _ _ _ _ _ Hrun). cbn [fst snd raised].
    change (attrs (log_error failed_to_trace w1).2) with (attrs w1).
    rewrite Hwp, Hw0. subst w0.
    rewrite request_recorded_request, request_recorded_hostnames.
    repeat split; try done.
    unfold request_recorded. cbn [attrs set_attrs].
    by rewrite !lookup_insert_ne.
Qed.

Lemma failed_request_tracing_keeps_request_entries_witness :
  let w := set_faults [true] ex_world in
  let w' := snd (process_request startswith_any ex_middleware ex_request w) in
  startswith_any (path ex_request) (excludelist_paths ex_middleware) = false /\
  raised (fst (process_request_tracing ex_middleware ex_request
                 (request_recorded ex_middleware ex_request w))) = true /\
  attrs w' !! REQUEST_THREAD_LOCAL_KEY = Some (VRequest ex_request) /\
  attrs w' !! SPAN_THREAD_LOCAL_KEY = None /\
  error_log w' = [failed_to_trace].
Proof.
  intros w w'.
  assert (Hx : startswith_any (path ex_request) (excludelist_paths ex_middleware)
               = false) by reflexivity.
  assert (Hr : raised (fst (process_request_tracing ex_middleware ex_request
                 (request_recorded ex_middleware ex_request w))) = true)
    by (vm_compute; reflexivity).
  destruct (failed_request_tracing_keeps_request_entries startswith_any
              ex_middleware ex_request w Hx) as (_ & Hreq & _ & Hfail).
  destruct (Hfail Hr) as (_ & Hspan & Hlog).
  exact (conj Hx (conj Hr (conj Hreq (conj Hspan Hlog)))).
Defined.

Lemma guarded_hook (body : M unit) (excluded : bool) w :
  stable error_log body -> stable database body ->
  let r := (if excluded then ret tt
            else try_except body (fun _ => log_error failed_to_trace)) w in
  fst r = Ret tt /\
  database (snd r) = database w /\
  error_log (snd r) = (error_log w ++ failure_records excluded (fst (body w)))%list.
Proof.
  intros Hlog Hdb. unfold failure_records. destruct excluded; cbn zeta.
  - cbn [ret fst snd]. by rewrite app_nil_r.
  - split; [apply guarded_outcome|]. split; [|by apply guarded_log].
    apply stable_try_except; [done|]. intros e. apply stable_log_error. done.
Qed.

(** C2, as the code has it: in each of the four hooks an exception raised by
    the tracing steps (decoding the context, opening or closing a span,
    setting attributes, finalizing the tracer) never leaves the hook. The
    hook returns what it returns without tracing ([process_response] the
    response it was given, the others nothing), leaves the database alone,
    and writes one log record exactly when its tracing block raised. *)
Theorem hooks_contain_instrumentation_failures dtu self request view_func response
    exception w :
  let excluded := dtu (path request) (excludelist_paths self) in
  (fst (process_request dtu self request w) = Ret tt /\
   database (snd (process_request dtu self request w)) = database w /\
   error_log (snd (process_request dtu self request w)) =
     (error_log w ++
      failure_records excluded
        (fst (process_request_tracing self request
                (request_recorded self request w))))%list) /\
  (fst (process_view dtu self request view_func w) = Ret tt /\
   database (snd (process_view dtu self request view_func w)) = database w /\
   error_log (snd (process_view dtu self request view_func w)) =
     (error_log w ++
      failure_records excluded (fst (process_view_tracing view_func w)))%list) /\
  (fst (process_response dtu self request response w) = Ret response /\
   database (snd (process_response dtu self request response w)) = database w /\
   error_log (snd (process_response dtu self request response w)) =
     (error_log w ++
      failure_records excluded
        (fst (process_response_tracing request response w)))%list) /\
  (fst (process_exception dtu self request exception w) = Ret tt /\
   database (snd (process_exception dtu self request exception w)) = database w /\
   error_log (snd (process_exception dtu self request exception w)) =
     (error_log w ++
      failure_records excluded
        (fst (process_exception_tracing request exception w)))%list).
Proof.
  intros excluded.
  destruct (tracing_blocks_leave_log self request view_func response exception)
    as (Hl1 & Hl2 & Hl3 & Hl4).
  assert (Hd1 : stable database (process_request_tracing self request)) by frame.
  assert (Hd2 : stable database (process_view_tracing view_func)) by frame.
  assert (Hd4 : stable database (process_exception_tracing request exception))
    by frame.
  repeat apply conj.
  - destruct (guarded_hook (process_request_tracing self request) excluded
                (request_recorded self request w) Hl1 Hd1) as (H & _).
    unfold process_request. fold excluded. by destruct excluded.
  - destruct (guarded_hook (process_request_tracing self request) excluded
                (request_recorded self request w) Hl1 Hd1) as (_ & H & _).
    unfold process_request. fold excluded. by destruct excluded.
  - destruct (guarded_hook (process_request_tracing self request) excluded
                (request_recorded self request w) Hl1 Hd1) as (_ & _ & H).
    unfold process_request. fold excluded. destruct excluded; [|exact H].
    unfold failure_records. cbn [ret snd]. by rewrite app_nil_r.
  - apply (guarded_hook (process_view_tracing view_func) excluded w Hl2 Hd2).
  - apply (guarded_hook (process_view_tracing view_func) excluded w Hl2 Hd2).
  - apply (guarded_hook (process_view_tracing view_func) excluded w Hl2 Hd2).
  - apply process_response_outcome.
  - apply (hooks_leave_database dtu self request view_func response exception).
  - apply process_response_log.
  - apply (guarded_hook (process_exception_tracing request exception) excluded w
             Hl4 Hd4).
  - apply (guarded_hook (process_exception_tracing request exception) excluded w
             Hl4 Hd4).
  - apply (guarded_hook (process_exception_tracing request exception) excluded w
             Hl4 Hd4).
Qed.

(** ** Failures of the instrumentation inside the database wrapper *)

(** A tracer whose [start_span] raises: the caller gets the tracer's
    exception and the database call is not made. *)
Lemma db_wrapper_start_span_failure :
  let w := ex_failing_tracer_world in
  tracer_slot w = Some 0%nat /\
  fst (ex_select "SELECT 1" [] false ex_context (database w)) = Ret ["SELECT 1"] /\
  fst (_trace_db_call ex_select "SELECT 1" [] false ex_context w) =
    Raise collaborator_failure /\
  database (snd (_trace_db_call ex_select "SELECT 1" [] false ex_context w)) =
    database w /\
  error_log (snd (_trace_db_call ex_select "SELECT 1" [] false ex_context w)) =
    error_log w.
Proof. vm_compute. done. Qed.

(** A tracer whose [end_span] raises in the [finally]: the call has been
    made, and the caller gets the tracer's exception in place of the rows. *)
Lemma db_wrapper_end_span_failure :
  let w := set_faults [false; false; false; false; false; true] ex_traced_world in
  fst (_trace_db_call ex_select "SELECT 1" [] false ex_context w) =
    Raise collaborator_failure /\
  database (snd (_trace_db_call ex_select "SELECT 1" [] false ex_context w)) =
    ["SELECT 1"].
Proof. vm_compute. done. Qed.

(** C2 as stated fails for the database wrapper: with a tracer active and a
    tracer whose [start_span] raises, the caller of a database call that
    would have returned rows gets the tracer's exception, and the call is
    never made. *)
Lemma db_wrapper_leaks_instrumentation_failure :
  ~ (forall execute sql params many context w,
       fst (_trace_db_call execute sql params many context w) =
       fst (execute sql params many context (database w))).
Proof.
  intros Hclaim.
  specialize (Hclaim ex_select "SELECT 1" [] false ex_context
                ex_failing_tracer_world).
  vm_compute in Hclaim. discriminate Hclaim.
Qed.

(** ** The database wrapper with a tracer *)

(** C6: with a tracer active and collaborators that do not fail, the
    wrapper hands the caller the very outcome of the wrapped call; one child
    span is added to the store, named after the vendor, of kind CLIENT, under
    the span that was current, and it is closed exactly once on both paths;
    when the call raised, its status is the error code UNKNOWN with the
    message "DB error", and the exception is the one the call raised. The
    tracer has the same spans open as before. *)
Theorem db_call_span_closed_on_both_paths execute sql params many context t T w :
  faults w = [] -> tracer_slot w = Some t -> tracers w !! t = Some T ->
  let r := _trace_db_call execute sql params many context w in
  let o := execute sql params many context (database w) in
  fst r = fst o /\
  database (snd r) = snd o /\
  (exists child,
     spans (snd r) = (spans w ++ [child])%list /\
     end_count child = 1%nat /\
     name child = vendor (connection context) +:+ ".query" /\
     span_kind child = CLIENT /\
     parent_span child = head (open_spans T) /\
     status child = (if raised (fst o) then Some db_error else None)) /\
  code db_error <> OK /\
  open_spans <$> (tracers (snd r) !! t) = Some (open_spans T).
Proof.
  intros Hf Hslot Ht r o. subst r o.
  rewrite (_trace_db_call_run _ _ _ _ _ _ _ _ Hf Hslot Ht).
  assert (Hlen : (t < length (tracers w))%nat) by by eapply lookup_lt_Some.
  destruct (execute sql params many context (database w)) as [[rows|e] d];
    cbn [fst snd raised]; unfold query_traced;
    cbn [database spans tracers set_database set_tracers set_spans].
  - repeat split; [eexists; repeat split|done|].
    by rewrite list_lookup_insert_eq.
  - repeat split; [eexists; repeat split|done|].
    by rewrite list_lookup_insert_eq.
Qed.

Lemma db_call_span_closed_on_both_paths_witness :
  let r := _trace_db_call ex_failing "SELECT 1" [] false ex_context ex_traced_world in
  fst r = Raise ex_boom /\
  exists child,
    spans (snd r) = (spans ex_traced_world ++ [child])%list /\
    end_count child = 1%nat /\
    status child = Some db_error.
Proof.
  assert (Hf : faults ex_traced_world = []) by reflexivity.
  assert (Hslot : tracer_slot ex_traced_world = Some 0%nat) by reflexivity.
  assert (Ht : tracers ex_traced_world !! 0%nat =
               Some (request_tracer ex_middleware ex_request 0)) by reflexivity.
  destruct (db_call_span_closed_on_both_paths ex_failing "SELECT 1" [] false
              ex_context _ _ _ Hf Hslot Ht)
    as (Ho & _ & (child & Hspans & Hend & _ & _ & _ & Hstatus) & _).
  split; [exact Ho|]. exists child. repeat split; assumption.
Defined.

(** ** Recording an unhandled exception *)

Lemma with_user_keeps sp u k :
  k <> "django.user.id" -> k <> "django.user.name" ->
  attributes (with_user u sp) !! k = attributes sp !! k.
Proof.
  intros Hid Hname. unfold with_user.
  destruct u as [[[i|] [n|]]|]; cbn [pk username attributes with_attribute];
    by rewrite ?lookup_insert_ne.
Qed.

Lemma with_user_id sp u :
  attributes (with_user u sp) !! "django.user.id" =
  match u ≫= pk with
  | Some i => Some (AStr (pretty i))
  | None => attributes sp !! "django.user.id"
  end.
Proof.
  unfold with_user.
  destruct u as [[[i|] [n|]]|]; cbn [pk username attributes with_attribute mbind
    option_bind]; rewrite ?lookup_insert_ne by done; by rewrite ?lookup_insert_eq.
Qed.

Lemma with_user_name sp u :
  attributes (with_user u sp) !! "django.user.name" =
  match u ≫= username with
  | Some n => Some (AStr n)
  | None => attributes sp !! "django.user.name"
  end.
Proof.
  unfold with_user.
  destruct u as [[[i|] [n|]]|]; cbn [pk username attributes with_attribute mbind
    option_bind]; rewrite ?lookup_insert_eq; rewrite ?lookup_insert_ne by done;
    done.
Qed.

Lemma with_user_end_count sp u : end_count (with_user u sp) = end_count sp.
Proof. unfold with_user. by destruct u as [[[i|] [n|]]|]. Qed.

Lemma with_user_parent_span sp u : parent_span (with_user u sp) = parent_span sp.
Proof. unfold with_user. by destruct u as [[[i|] [n|]]|]. Qed.

(** C8: on a request whose path is not excluded, with collaborators that do
    not fail, [process_exception] changes one object only: the span kept in
    the context store under [django_span], whatever span the tracer holds as
    current. That span receives the class name of the exception, its text
    and the formatted traceback, and the user id and user name of the
    request where they are not null; it is not closed, and no tracer is
    touched. *)
Theorem process_exception_annotates_stored_span dtu self request exception r sp w :
  dtu (path request) (excludelist_paths self) = false ->
  faults w = [] ->
  attrs w !! SPAN_THREAD_LOCAL_KEY = Some (VSpan r) ->
  spans w !! r = Some sp ->
  let w' := snd (process_exception dtu self request exception w) in
  fst (process_exception dtu self request exception w) = Ret tt /\
  (exists sp',
     spans w' = <[r := sp']> (spans w) /\
     attributes sp' !! ERROR_NAME = Some (AStr (exc_class exception)) /\
     attributes sp' !! ERROR_MESSAGE = Some (AStr (exc_str exception)) /\
     attributes sp' !! STACKTRACE =
       Some (AStr (join_lines (traceback_of exception w))) /\
     (forall i, user request ≫= pk = Some i ->
        attributes sp' !! "django.user.id" = Some (AStr (pretty i))) /\
     (forall n, user request ≫= username = Some n ->
        attributes sp' !! "django.user.name" = Some (AStr n)) /\
     end_count sp' = end_count sp) /\
  (forall c, c <> r -> spans w' !! c = spans w !! c) /\
  tracers w' = tracers w /\
  tracer_slot w' = tracer_slot w.
Proof.
  intros Hx Hf Ha Hs w'. subst w'.
  rewrite (process_exception_run _ _ _ _ _ _ _ Hx Hf Ha Hs).
  cbn [fst snd spans tracers tracer_slot set_spans].
  split; [done|]. split; [|split; [|done]].
  - eexists. split; [done|].
    rewrite !with_user_keeps by done. rewrite with_user_id, with_user_name.
    rewrite with_user_end_count.
    unfold with_exception. cbn [attributes with_attribute end_count].
    repeat split.
    + rewrite !lookup_insert_ne by done. apply lookup_insert_eq.
    + rewrite lookup_insert_ne by done. apply lookup_insert_eq.
    + apply lookup_insert_eq.
    + by intros i ->.
    + by intros n ->.
  - intros c Hc. by rewrite list_lookup_insert_ne.
Qed.

Lemma process_exception_annotates_stored_span_witness :
  let w := ex_child_open_world in
  let w' := snd (process_exception startswith_any ex_middleware ex_request ex_boom w) in
  (open_spans <$> tracers w !! 0%nat) = Some [1%nat; 0%nat] /\
  spans w' !! 1%nat = spans w !! 1%nat /\
  exists sp',
    spans w' !! 0%nat = Some sp' /\
    attributes sp' !! ERROR_NAME = Some (AStr "ValueError") /\
    attributes sp' !! ERROR_MESSAGE = Some (AStr "boom") /\
    end_count sp' = 0%nat.
Proof.
  intros w w'.
  assert (Hx : startswith_any (path ex_request) (excludelist_paths ex_middleware)
               = false) by reflexivity.
  assert (Hf : faults w = []) by reflexivity.
  assert (Ha : attrs w !! SPAN_THREAD_LOCAL_KEY = Some (VSpan 0))
    by (vm_compute; reflexivity).
  assert (Hs : spans w !! 0%nat = Some (root_span ex_request)) by reflexivity.
  destruct (process_exception_annotates_stored_span startswith_any ex_middleware
              ex_request ex_boom _ _ _ Hx Hf Ha Hs)
    as (_ & (sp' & Hspans & Hname & Hmsg & _ & _ & _ & Hend) & Hother & _).
  split; [reflexivity|]. split; [by apply Hother|].
  exists sp'. split; [|split; [exact Hname|split; [exact Hmsg|exact Hend]]].
  exact (f_equal (fun l => l !! 0%nat) Hspans).
Defined.

(** ** User attributes at the response *)

Lemma stable_span_view_update_span {C} (proj : Span -> C) s g :
  (forall sp, proj (g sp) = proj sp) -> stable (span_view proj) (update_span s g).
Proof.
  intros Hg w. unfold update_span. destruct (spans w !! s) as [sp|] eqn:Hs; [|done].
  unfold span_view. cbn [snd spans set_spans].
  rewrite list_fmap_insert, Hg. apply list_insert_id.
  by rewrite list_lookup_fmap, Hs.
Qed.

Lemma stable_span_view_end_span {C} (proj : Span -> C) tracer :
  (forall sp, proj (closed sp) = proj sp) -> stable (span_view proj) (end_span tracer).
Proof.
  intros Hg. apply stable_tracer_call; [by intros ? ?|]. intros t T.
  destruct (open_spans T); [apply stable_ret|].
  apply stable_bind; [by apply stable_span_view_update_span|]. by intros _ w.
Qed.

Lemma wp_snd {A} (m : M A) (P : World -> Prop) w :
  wp m (fun _ => P) (fun _ => P) w -> P (snd (m w)).
Proof. unfold wp. by destruct (m w) as [[a|e] w']. Qed.

Lemma process_response_attributes dtu self request response r sp w :
  dtu (path request) (excludelist_paths self) = false ->
  faults w = [] ->
  attrs w !! SPAN_THREAD_LOCAL_KEY = Some (VSpan r) ->
  spans w !! r = Some sp ->
  span_view attributes (snd (process_response dtu self request response w)) =
  <[r := attributes (with_response request response sp)]> (span_view attributes w).
Proof.
  intros Hx Hf Ha Hs. unfold process_response. rewrite Hx.
  unfold finally_return. cbn [snd].
  apply (wp_snd _ (fun w' => span_view attributes w' = _)).
  apply wp_try_except, wp_bind, wp_get_opencensus_attr. rewrite Ha.
  cbn [default from_option id]. unfold span_view at 3. open_world w.
  step wp_add_attribute.
  step wp__set_django_attributes.
  eapply (wp_stable (span_view attributes)).
  - apply stable_bind; [apply stable_get_opencensus_tracer|]. intros tracer.
    apply stable_bind; [by apply stable_span_view_end_span|]. intros _.
    apply stable_finish; by intros ? ?.
  - reflexivity.
  - intros _ w' ->. unfold span_view, with_response. cbn [spans].
    by rewrite !list_fmap_insert, list_insert_insert_eq.
  - intros e w' Hw'. apply wp_snd with (m := log_error failed_to_trace)
      (P := fun w'' => span_view attributes w'' = _).
    unfold wp, log_error, span_view, with_response. cbn [spans set_error_log].
    fold (span_view attributes w'). rewrite Hw'. unfold span_view. cbn [spans].
    by rewrite !list_fmap_insert, list_insert_insert_eq.
Qed.

(** C9, as the code has it: at the response, with collaborators that do not
    fail and the request's span in the context store, the span carries the
    user id when the request has a user whose id is not null, and the user
    name when the request has a user whose name is not null, each on its own;
    an attribute whose value is null, or a request without a user, leaves
    what the span had under that key. *)
Theorem process_response_user_attributes dtu self request response r sp w :
  dtu (path request) (excludelist_paths self) = false ->
  faults w = [] ->
  attrs w !! SPAN_THREAD_LOCAL_KEY = Some (VSpan r) ->
  spans w !! r = Some sp ->
  exists sp',
    spans (snd (process_response dtu self request response w)) !! r = Some sp' /\
    attributes sp' !! "django.user.id" =
      match user request ≫= pk with
      | Some i => Some (AStr (pretty i))
      | None => attributes sp !! "django.user.id"
      end /\
    attributes sp' !! "django.user.name" =
      match user request ≫= username with
      | Some n => Some (AStr n)
      | None => attributes sp !! "django.user.name"
      end.
Proof.
  intros Hx Hf Ha Hs.
  pose proof (process_response_attributes _ _ _ response _ _ _ Hx Hf Ha Hs) as Hview.
  assert (Hr : span_view attributes
                 (snd (process_response dtu self request response w)) !! r =
               Some (attributes (with_response request response sp))).
  { rewrite Hview. apply list_lookup_insert_eq. unfold span_view.
    rewrite length_fmap. by eapply lookup_lt_Some. }
  unfold span_view in Hr. rewrite list_lookup_fmap in Hr.
  destruct (spans (snd (process_response dtu self request response w)) !! r)
    as [sp'|]; [|done].
  injection Hr as Hr. exists sp'. split; [done|]. rewrite Hr.
  unfold with_response. rewrite with_user_id, with_user_name.
  cbn [attributes with_attribute]. by rewrite !lookup_insert_ne.
Qed.

Lemma process_response_user_attributes_witness :
  exists sp',
    spans (snd (process_response startswith_any ex_middleware ex_request_no_pk
                  ex_response ex_traced_world)) !! 0%nat = Some sp' /\
    attributes sp' !! "django.user.id" = None /\
    attributes sp' !! "django.user.name" = Some (AStr "alice").
Proof.
  assert (Hx : startswith_any (path ex_request_no_pk)
                 (excludelist_paths ex_middleware) = false) by reflexivity.
  assert (Hf : faults ex_traced_world = []) by reflexivity.
  assert (Ha : attrs ex_traced_world !! SPAN_THREAD_LOCAL_KEY = Some (VSpan 0))
    by (vm_compute; reflexivity).
  assert (Hs : spans ex_traced_world !! 0%nat = Some (root_span ex_request))
    by reflexivity.
  destruct (process_response_user_attributes startswith_any ex_middleware
              ex_request_no_pk ex_response _ _ _ Hx Hf Ha Hs)
    as (sp' & Hsp & Hid & Hname).
  exists sp'. split; [exact Hsp|]. split; [exact Hid|exact Hname].
Defined.

(** C9 as stated fails: a user whose id is null and whose name is not still
    gets the user name attached. *)
Lemma user_name_attached_without_user_id :
  ~ (forall request response r sp w,
       startswith_any (path request) (excludelist_paths ex_middleware) = false ->
       faults w = [] ->
       attrs w !! SPAN_THREAD_LOCAL_KEY = Some (VSpan r) ->
       spans w !! r = Some sp ->
       attributes sp !! "django.user.id" = None ->
       attributes sp !! "django.user.name" = None ->
       (user request ≫= pk = None \/ user request ≫= username = None) ->
       forall sp',
         spans (snd (process_response startswith_any ex_middleware request response
                       w)) !! r = Some sp' ->
         attributes sp' !! "django.user.id" = None /\
         attributes sp' !! "django.user.name" = None).
Proof.
  intros Hclaim.
  specialize (Hclaim ex_request_no_pk ex_response 0%nat (root_span ex_request)
                ex_traced_world).
  destruct (Hclaim eq_refl eq_refl) with
    (sp' := closed (with_response ex_request_no_pk ex_response (root_span ex_request)))
    as [_ Hname]; try (vm_compute; reflexivity); [by left|].
  vm_compute in Hname. discriminate Hname.
Qed.

(** ** One root span per request, closed once *)

#[export] Hint Resolve stable_span_view_update_span : frame.


Lemma request_opened_open self request w :
  faults w = [] ->
  request_open (length (spans w)) (length (tracers w))
               (request_opened self request w).
Proof.
  intros Hf. unfold request_open, request_opened. open_world w. world_simpl.
  repeat split.
  - apply lookup_insert_eq.
  - eexists. split; [apply lookup_appended|done].
  - eexists. split; [apply lookup_appended|done].
  - intros i sp Hi Hlt. apply lookup_lt_Some in Hi.
    rewrite length_app in Hi. cbn [length] in Hi. lia.
Qed.

Lemma request_open_update root t w sp sp' :
  request_open root t w -> spans w !! root = Some sp ->
  end_count sp' = end_count sp -> parent_span sp' = parent_span sp ->
  request_open root t (set_spans (fun l => <[root := sp']> l) w).
Proof.
  intros (Hf & Hslot & Ha & HT & (sp0 & Hs0 & Hend & Hpar) & Hkids) Hs He Hp.
  rewrite Hs in Hs0. injection Hs0 as <-.
  unfold request_open. cbn [faults tracer_slot attrs tracers spans set_spans].
  repeat split; try done.
  - exists sp'. split; [by eapply lookup_updated|]. split; congruence.
  - intros i spi Hi Hlt. rewrite list_lookup_insert_ne in Hi by lia.
    by eapply Hkids.
Qed.

Lemma request_open_query root t T c d w :
  request_open root t w -> tracers w !! t = Some T ->
  parent_span c = Some root ->
  request_open root t (query_traced t T c d w).
Proof.
  intros (Hf & Hslot & Ha & (T0 & HT0 & Ho) & (sp0 & Hs0 & Hend & Hpar) & Hkids)
         HT Hp.
  rewrite HT in HT0. injection HT0 as <-.
  unfold request_open, query_traced.
  cbn [faults tracer_slot attrs tracers spans set_spans set_tracers set_database].
  repeat split; try done.
  - eexists. split; [by eapply lookup_updated|]. done.
  - exists sp0. rewrite lookup_app_l by by eapply lookup_lt_Some. done.
  - intros i spi Hi Hlt.
    destruct (decide (i < length (spans w))%nat) as [Hin|Hout].
    + rewrite lookup_app_l in Hi by done. by eapply Hkids.
    + assert (i = length (spans w)) as ->.
      { apply lookup_lt_Some in Hi. rewrite length_app in Hi.
        cbn [length] in Hi. lia. }
      rewrite lookup_appended in Hi. by injection Hi as <-.
Qed.

Lemma discarded_outcome {A} (m : M A) w :
  snd (try_except (m ;;; ret tt) (fun _ => ret tt) w) = snd (m w).
Proof. unfold try_except, bind, ret. by destruct (m w) as [[a|e] w']. Qed.

Lemma run_event_keeps_open dtu self request ev root t w :
  dtu (path request) (excludelist_paths self) = false ->
  request_open root t w ->
  request_open root t (snd (run_event dtu self request ev w)).
Proof.
  intros Hx Hopen.
  pose proof Hopen as (Hf & Hslot & Ha & (T & HT & Ho) & (sp & Hs & Hend & Hpar) & _).
  destruct ev as [view_func|execute sql params many context|exception];
    cbn [run_event].
  - erewrite process_view_run by done. cbn [snd].
    by eapply request_open_update.
  - rewrite discarded_outcome.
    rewrite (_trace_db_call_run _ _ _ _ _ _ _ _ Hf Hslot HT).
    destruct (execute sql params many context (database w)) as [[rows|e] d];
      cbn [snd]; apply request_open_query; try done; by rewrite Ho.
  - erewrite process_exception_run by done. cbn [snd].
    eapply request_open_update; try done;
      first [by rewrite with_user_end_count|by rewrite with_user_parent_span].
Qed.

Lemma run_events_keep_open dtu self request evs root t w :
  dtu (path request) (excludelist_paths self) = false ->
  request_open root t w ->
  request_open root t (snd (run_events dtu self request evs w)).
Proof.
  intros Hx. revert w. induction evs as [|ev evs IH]; intros w Hopen; [done|].
  cbn [run_events]. unfold bind.
  pose proof (run_event_keeps_open dtu self request ev root t w Hx Hopen) as Hev.
  assert (Hret : exists w1, run_event dtu self request ev w = (Ret tt, w1)).
  { destruct ev; cbn [run_event].
    - unfold process_view. rewrite Hx. unfold try_except.
      destruct (process_view_tracing _ w) as [[[]|e] w1]; by eexists.
    - unfold try_except, bind, ret.
      destruct (_trace_db_call _ _ _ _ _ w) as [[a|e] w1]; by eexists.
    - unfold process_exception. rewrite Hx. unfold try_except.
      destruct (process_exception_tracing _ _ w) as [[[]|e] w1]; by eexists. }
  destruct Hret as [w1 Hw1]. rewrite Hw1 in *. by apply IH.
Qed.




(** ** Host name patterns *)

(** C4, as the code has it: the hooks test the path patterns only. The host
    name patterns are read from the settings into the middleware, and
    [process_request] copies them into the context store; a request whose
    host name matches one of them and whose path is not excluded is traced
    like any other: with collaborators that do not fail, a root span is
    opened and kept in the context store. The three later hooks do the same
    whatever host name patterns are configured. *)
Theorem hostname_patterns_do_not_gate_hooks dtu dth self request w :
  dth (host request) (excludelist_hostnames self) = true ->
  dtu (path request) (excludelist_paths self) = false ->
  faults w = [] ->
  let w' := snd (process_request dtu self request w) in
  spans w' = (spans w ++ [root_span request])%list /\
  attrs w' !! SPAN_THREAD_LOCAL_KEY = Some (VSpan (length (spans w))) /\
  attrs w' !! "excludelist_hostnames" =
    Some (python_none_or_list (excludelist_hostnames self)) /\
  (forall sa ex pr lsa lex lpr settings,
     excludelist_hostnames
       (OpencensusMiddleware_init sa ex pr lsa lex lpr settings) =
     EXCLUDELIST_HOSTNAMES settings) /\
  (forall hostnames view_func response exception w0,
     let other := with_hostnames hostnames self in
     process_view dtu other request view_func w0 =
       process_view dtu self request view_func w0 /\
     process_response dtu other request response w0 =
       process_response dtu self request response w0 /\
     process_exception dtu other request exception w0 =
       process_exception dtu self request exception w0).
Proof.
  intros _ Hx Hf w'. subst w'.
  destruct (failed_request_tracing_entries dtu self request w Hx) as (_ & _ & Hh).
  split; [|split; [|split; [exact Hh|done]]].
  - by rewrite (process_request_run _ _ _ _ Hx Hf).
  - rewrite (process_request_run _ _ _ _ Hx Hf). unfold request_opened.
    cbn [snd attrs set_attrs]. apply lookup_insert_eq.
Qed.

Lemma hostname_patterns_do_not_gate_hooks_witness :
  is_listed (host ex_request) (excludelist_hostnames ex_middleware) = true /\
  spans (snd (process_request startswith_any ex_middleware ex_request ex_world)) =
    [root_span ex_request].
Proof.
  assert (Hh : is_listed (host ex_request) (excludelist_hostnames ex_middleware)
               = true) by reflexivity.
  assert (Hx : startswith_any (path ex_request) (excludelist_paths ex_middleware)
               = false) by reflexivity.
  assert (Hf : faults ex_world = []) by reflexivity.
  destruct (hostname_patterns_do_not_gate_hooks startswith_any is_listed
              ex_middleware ex_request ex_world Hh Hx Hf) as (Hs & _).
  split; [exact Hh|exact Hs].
Defined.

(** C4 as stated fails: a request whose host name is one of the configured
    host names, on a path that is not excluded, gets a span. *)
Lemma hostname_match_is_still_traced :
  ~ (forall self request w,
       is_listed (host request) (excludelist_hostnames self) = true ->
       process_request startswith_any self request w = (Ret tt, w)).
Proof.
  intros Hclaim.
  specialize (Hclaim ex_middleware ex_request ex_world eq_refl).
  apply (f_equal (fun r => length (spans (snd r)))) in Hclaim.
  vm_compute in Hclaim. discriminate Hclaim.
Qed.

(** ** The examples of the specification, run *)

(** A request to [/healthz], a path configured as excluded: the four hooks
    leave the world alone, nothing reaches the exporter. *)
Example excluded_request_run :
  (process_request startswith_any ex_middleware ex_health_request ;;;
   process_view startswith_any ex_middleware ex_health_request ex_view ;;;
   process_exception startswith_any ex_middleware ex_health_request ex_boom ;;;
   process_response startswith_any ex_middleware ex_health_request ex_response)
    ex_world
  = (Ret ex_response, ex_world).
Proof. reflexivity. Qed.

(** A request to [/orders/42] resolved to [OrdersView]: the span has the
    placeholder name before route resolution and the name of the view after. *)
Example span_name_after_route_resolution :
  name <$> (spans ex_traced_world !! 0%nat) = Some "span" /\
  name <$> (spans (snd (process_view startswith_any ex_middleware ex_request ex_view
                          ex_traced_world)) !! 0%nat) = Some "OrdersView".
Proof. vm_compute. done. Qed.

(** The same request with a [ValueError("boom")] in the view and a response
    of status 200: the root span carries the status code, the error name and
    message and a traceback, it is closed once and exported once. *)
Example traced_request_run :
  let w := snd ((process_view startswith_any ex_middleware ex_request ex_view ;;;
                 process_exception startswith_any ex_middleware ex_request ex_boom ;;;
                 process_response startswith_any ex_middleware ex_request ex_response)
                  ex_traced_world) in
  exists sp,
    spans w = [sp] /\
    attributes sp !! HTTP_STATUS_CODE = Some (AInt 200) /\
    attributes sp !! ERROR_NAME = Some (AStr "ValueError") /\
    attributes sp !! ERROR_MESSAGE = Some (AStr "boom") /\
    attributes sp !! STACKTRACE = Some (AStr ("frame 1" +:+ newline +:+ "frame 2")) /\
    attributes sp !! "django.user.id" = Some (AStr "7") /\
    attributes sp !! "django.user.name" = Some (AStr "alice") /\
    end_count sp = 1%nat /\
    exported w = [[0%nat]] /\
    error_log w = [].
Proof. eexists. vm_compute. done. Qed.

(** A propagator that raises: the request is served untraced. No span is
    opened, [process_response] finds no span to annotate, nothing is closed
    and nothing is exported; each hook leaves one log record. *)
Example untraced_request_run :
  let w := snd ((process_request startswith_any ex_middleware ex_request ;;;
                 process_response startswith_any ex_middleware ex_request ex_response)
                  (set_faults [true] ex_world)) in
  spans w = [] /\ exported w = [] /\
  error_log w = [failed_to_trace; failed_to_trace].
Proof. vm_compute. done. Qed.

(** A request whose [get_host()] raises: the span that [process_request]
    had opened is in the store, it is not in the context store, and it is
    still open after [process_response]. *)
Example disallowed_host_run :
  let w := snd ((process_request startswith_any ex_middleware ex_request ;;;
                 process_response startswith_any ex_middleware ex_request ex_response)
                  (set_faults [false; false; false; true] ex_world)) in
  end_count <$> spans w = [0%nat] /\
  attrs w !! SPAN_THREAD_LOCAL_KEY = None /\
  exported w = [] /\
  error_log w = [failed_to_trace; failed_to_trace].
Proof. vm_compute. done. Qed.

(** A view that opened a span of its own on the tracer and left it open: no
    collaborator fails and nothing is logged, yet [process_response] closes
    the span of the view, not the span of the request, which stays open. *)
Example open_child_span_run :
  let r := process_response startswith_any ex_middleware ex_request ex_response
             ex_child_open_world in
  faults ex_child_open_world = [] /\
  attrs ex_child_open_world !! SPAN_THREAD_LOCAL_KEY = Some (VSpan 0%nat) /\
  end_count <$> spans ex_child_open_world = [0%nat; 0%nat] /\
  fst r = Ret ex_response /\
  end_count <$> spans (snd r) = [0%nat; 1%nat] /\
  exported (snd r) = [[1%nat]] /\
  error_log (snd r) = [].
Proof. vm_compute. done. Qed.

(** A span whose [add_attribute] raises at the response: the response is
    returned, and the span stays open. *)
Example unclosed_span_run :
  let r := process_response startswith_any ex_middleware ex_request ex_response
             (set_faults [true] ex_traced_world) in
  fst r = Ret ex_response /\
  end_count <$> (spans (snd r) !! 0%nat) = Some 0%nat /\
  error_log (snd r) = [failed_to_trace].
Proof. vm_compute. done. Qed.

(** * Further properties of the module *)

(** ** The header carrier *)

Lemma upper_ascii_idempotent c : upper_ascii (upper_ascii c) = upper_ascii c.
Proof. destruct c as [[] [] [] [] [] [] [] []]; reflexivity. Qed.

Lemma upper_ascii_hyphen c :
  hyphen_to_underscore (upper_ascii (hyphen_to_underscore c)) =
  hyphen_to_underscore (upper_ascii c).
Proof. destruct c as [[] [] [] [] [] [] [] []]; reflexivity. Qed.

Lemma meta_name_upper key : meta_name (string_map upper_ascii key) = meta_name key.
Proof.
  unfold meta_name. f_equal. induction key as [|c key IH]; [done|].
  cbn [string_map]. by rewrite upper_ascii_idempotent, IH.
Qed.

Lemma meta_name_hyphen key :
  meta_name (string_map hyphen_to_underscore key) = meta_name key.
Proof.
  unfold meta_name. f_equal. induction key as [|c key IH]; [done|].
  cbn [string_map]. by rewrite upper_ascii_hyphen, IH.
Qed.

Lemma meta_name_prefix key : String.prefix "HTTP_" (meta_name key) = true.
Proof.
  unfold meta_name.
  by destruct (string_map hyphen_to_underscore (string_map upper_ascii key)).
Qed.

(** X1: whatever [_DjangoMetaWrapper.get] returns is the entry of [META]
    under a name that starts with [HTTP_]: entries that Django keeps without
    that prefix are out of its reach, and a [META] without any [HTTP_] entry
    gives None for every key. *)
Theorem meta_wrapper_reads_http_entries_only self key :
  (forall v, _DjangoMetaWrapper_get self key = Some v ->
     exists name, String.prefix "HTTP_" name = true /\ meta self !! name = Some v) /\
  ((forall name, String.prefix "HTTP_" name = true -> meta self !! name = None) ->
   _DjangoMetaWrapper_get self key = None).
Proof.
  split.
  - intros v Hget. exists (meta_name key). split; [apply meta_name_prefix|exact Hget].
  - intros Hnone. apply (Hnone (meta_name key)), meta_name_prefix.
Qed.

Lemma meta_wrapper_reads_http_entries_only_witness :
  _DjangoMetaWrapper_get ex_carrier "content-type" = None /\
  _DjangoMetaWrapper_get ex_carrier "x-trace" = Some "abc" /\
  exists name,
    String.prefix "HTTP_" name = true /\ meta ex_carrier !! name = Some "abc".
Proof.
  assert (Hget : _DjangoMetaWrapper_get ex_carrier "x-trace" = Some "abc")
    by (vm_compute; reflexivity).
  split; [vm_compute; reflexivity|]. split; [exact Hget|].
  exact (proj1 (meta_wrapper_reads_http_entries_only ex_carrier "x-trace") "abc" Hget).
Defined.

(** X2: [_DjangoMetaWrapper.get] does not tell the case of the letters of a
    header name, nor a hyphen from an underscore: the name as the client
    wrote it, in capitals or with underscores gives the same entry. *)
Theorem meta_wrapper_get_normalises_key self key :
  is_ascii key = true ->
  _DjangoMetaWrapper_get self (string_map upper_ascii key) =
    _DjangoMetaWrapper_get self key /\
  _DjangoMetaWrapper_get self (string_map hyphen_to_underscore key) =
    _DjangoMetaWrapper_get self key /\
  _DjangoMetaWrapper_get self key = meta self !! meta_name key.
Proof.
  intros _. unfold _DjangoMetaWrapper_get. fold (meta_name key).
  fold (meta_name (string_map upper_ascii key)).
  fold (meta_name (string_map hyphen_to_underscore key)).
  by rewrite meta_name_upper, meta_name_hyphen.
Qed.

Lemma meta_wrapper_get_normalises_key_witness :
  is_ascii "X-Cloud-Trace-Context" = true /\
  _DjangoMetaWrapper_get (mkMetaWrapper (META ex_request)) "TRACEPARENT" =
    _DjangoMetaWrapper_get (mkMetaWrapper (META ex_request)) "traceparent" /\
  meta_name "X-Cloud-Trace-Context" = "HTTP_X_CLOUD_TRACE_CONTEXT".
Proof.
  split; [reflexivity|]. split; [|reflexivity].
  destruct (meta_wrapper_get_normalises_key (mkMetaWrapper (META ex_request))
              "traceparent" eq_refl) as (H & _ & _).
  exact H.
Defined.

(** X3: a carrier built from a non-empty [META] holds that [META] and does
    not look at the execution context; built from an empty one it holds the
    [META] of the request kept in the context store, and raises
    AttributeError, changing nothing, when the store holds no request. *)
Theorem meta_wrapper_init_falls_back_to_stored_request m w :
  (m <> ∅ -> _DjangoMetaWrapper_init m w = (Ret (mkMetaWrapper m), w)) /\
  (forall r, attrs w !! REQUEST_THREAD_LOCAL_KEY = Some (VRequest r) ->
     _DjangoMetaWrapper_init ∅ w = (Ret (mkMetaWrapper (META r)), w)) /\
  ((forall r, attrs w !! REQUEST_THREAD_LOCAL_KEY <> Some (VRequest r)) ->
     _DjangoMetaWrapper_init ∅ w = (Raise attribute_error, w)).
Proof.
  unfold _DjangoMetaWrapper_init. repeat split.
  - intros Hm. by destruct (decide (m = ∅)).
  - intros r Hr. destruct (decide (∅ = ∅)) as [_|]; [|done].
    unfold bind, _get_django_request, get_opencensus_attr. by rewrite Hr.
  - intros Hr. destruct (decide (∅ = ∅)) as [_|]; [|done].
    unfold bind, _get_django_request, get_opencensus_attr.
    destruct (attrs w !! REQUEST_THREAD_LOCAL_KEY) as [[]|] eqn:Hv; try done.
    by destruct (Hr r).
Qed.

Lemma meta_wrapper_init_falls_back_to_stored_request_witness :
  _DjangoMetaWrapper_init ∅ ex_traced_world =
    (Ret (mkMetaWrapper (META ex_request)), ex_traced_world) /\
  _DjangoMetaWrapper_init ∅ ex_world = (Raise attribute_error, ex_world).
Proof.
  destruct (meta_wrapper_init_falls_back_to_stored_request ∅ ex_traced_world)
    as (_ & Hstored & _).
  destruct (meta_wrapper_init_falls_back_to_stored_request ∅ ex_world)
    as (_ & _ & Hnone).
  split.
  - apply Hstored. vm_compute. reflexivity.
  - apply Hnone. intros r. vm_compute. discriminate.
Defined.

(** ** Hooks that find no tracer or no span *)

(** X4: on a path that is not excluded, [process_view] run when the
    execution context holds no tracer renames nothing: whatever the schedule
    of failures, the world it leaves is the world it found with one log
    record more. The same holds, with collaborators that do not fail, when
    the tracer has no span open. *)
Theorem process_view_without_span_only_logs dtu self request view_func w :
  dtu (path request) (excludelist_paths self) = false ->
  (tracer_slot w = None ->
   process_view dtu self request view_func w =
     (Ret tt, set_error_log (fun l => l ++ [failed_to_trace]) w)) /\
  (forall t T, tracer_slot w = Some t -> tracers w !! t = Some T ->
     open_spans T = [] -> faults w = [] ->
     process_view dtu self request view_func w =
       (Ret tt, set_error_log (fun l => l ++ [failed_to_trace]) w)).
Proof.
  intros Hx. unfold process_view. rewrite Hx. split.
  - intros Hslot.
    unfold try_except, process_view_tracing, bind, _get_current_tracer,
      get_opencensus_tracer. by rewrite Hslot.
  - intros t T Hslot HT Ho Hf. apply wp_run.
    apply wp_try_except, wp_bind, wp_get_opencensus_tracer. rewrite Hslot.
    apply wp_bind. eapply wp_current_span; [done..|]. rewrite Ho.
    apply wp_bind. eapply wp_get_func_name; [done|]. by apply wp_raise.
Qed.

Lemma process_view_without_span_only_logs_witness :
  process_view startswith_any ex_middleware ex_request ex_view ex_world =
    (Ret tt, set_error_log (fun l => l ++ [failed_to_trace]) ex_world).
Proof.
  assert (Hx : startswith_any (path ex_request) (excludelist_paths ex_middleware)
               = false) by reflexivity.
  exact (proj1 (process_view_without_span_only_logs startswith_any ex_middleware
                  ex_request ex_view ex_world Hx) eq_refl).
Defined.

Lemma add_attribute_on_non_span v k a w :
  (forall s, v <> VSpan s) -> add_attribute v k a w = (Raise attribute_error, w).
Proof. intros Hv. destruct v as [| |s|]; try done. by destruct (Hv s). Qed.

(** X5: on a path that is not excluded, [process_response] and
    [process_exception] run when the context store holds no span under
    [django_span] do no tracing at all, whatever the schedule of failures:
    no span is annotated or closed, the tracer is not finished, nothing is
    exported; the world is the one they found with one log record more, and
    [process_response] still returns the response. *)
Theorem hooks_without_stored_span_only_log dtu self request response exception w :
  dtu (path request) (excludelist_paths self) = false ->
  (forall s, attrs w !! SPAN_THREAD_LOCAL_KEY <> Some (VSpan s)) ->
  process_response dtu self request response w =
    (Ret response, set_error_log (fun l => l ++ [failed_to_trace]) w) /\
  process_exception dtu self request exception w =
    (Ret tt, set_error_log (fun l => l ++ [failed_to_trace]) w).
Proof.
  intros Hx Hspan.
  assert (Hv : forall s, default VNone (attrs w !! SPAN_THREAD_LOCAL_KEY) <> VSpan s).
  { intros s Hs. apply (Hspan s).
    by destruct (attrs w !! SPAN_THREAD_LOCAL_KEY) as [v|]; simplify_eq/=. }
  unfold process_response, process_exception. rewrite Hx. split; apply wp_run.
  - apply wp_finally_return, wp_try_except, wp_bind, wp_get_opencensus_attr, wp_bind.
    unfold wp. by rewrite add_attribute_on_non_span.
  - apply wp_try_except, wp_bind, wp_traceback, wp_bind, wp_get_opencensus_attr,
      wp_bind.
    unfold wp. by rewrite add_attribute_on_non_span.
Qed.

Lemma hooks_without_stored_span_only_log_witness :
  process_response startswith_any ex_middleware ex_request ex_response
    (set_faults [true] ex_world) =
    (Ret ex_response,
     set_error_log (fun l => l ++ [failed_to_trace]) (set_faults [true] ex_world)).
Proof.
  assert (Hx : startswith_any (path ex_request) (excludelist_paths ex_middleware)
               = false) by reflexivity.
  assert (Hs : forall s, attrs (set_faults [true] ex_world) !! SPAN_THREAD_LOCAL_KEY
                         <> Some (VSpan s)).
  { intros s. vm_compute. discriminate. }
  exact (proj1 (hooks_without_stored_span_only_log startswith_any ex_middleware
                  ex_request ex_response ex_boom _ Hx Hs)).
Defined.

(** ** What the module writes, under every schedule of failures *)

Lemma process_request_other_keys dtu self request k w :
  k <> REQUEST_THREAD_LOCAL_KEY -> k <> "excludelist_hostnames" ->
  k <> SPAN_THREAD_LOCAL_KEY ->
  attrs (snd (process_request dtu self request w)) !! k = attrs w !! k.
Proof.
  intros Hreq Hhost Hspan. unfold process_request.
  destruct (dtu (path request) (excludelist_paths self)); [done|].
  change (attrs (snd (try_except (process_request_tracing self request)
                        (fun _ => log_error failed_to_trace)
                        (request_recorded self request w))) !! k = attrs w !! k).
  set (w0 := request_recorded self request w).
  assert (Hw0 : attrs w0 !! k = attrs w !! k).
  { unfold w0, request_recorded. cbn [attrs set_attrs].
    by rewrite !lookup_insert_ne. }
  pose proof (process_request_tracing_attrs self request w0) as Hwp.
  unfold wp in Hwp.
  destruct (process_request_tracing self request w0) as [[[]|e] w1] eqn:Hrun.
  - rewrite (try_except_Ret _ _ _ _ _ Hrun). cbn [snd].
    destruct Hwp as [span ->]. by rewrite lookup_insert_ne.
  - rewrite (try_except_Raise _ _ _ _ _ Hrun).
    change (attrs (log_error failed_to_trace w1).2) with (attrs w1).
    by rewrite Hwp.
Qed.

(** X6: the context store is written by [process_request] only, and under
    three keys only: whatever the world and the schedule of failures,
    [process_request] leaves every other key as it was, and [process_view],
    [process_response], [process_exception] and [_trace_db_call] leave the
    whole store, and the tracer of the context, as they were. Nothing is
    removed at the end of a request. *)
Theorem context_store_written_at_request_start_only dtu self request view_func
    response exception execute sql params many context w :
  (forall k, k <> REQUEST_THREAD_LOCAL_KEY -> k <> "excludelist_hostnames" ->
             k <> SPAN_THREAD_LOCAL_KEY ->
     attrs (snd (process_request dtu self request w)) !! k = attrs w !! k) /\
  attrs (snd (process_view dtu self request view_func w)) = attrs w /\
  attrs (snd (process_response dtu self request response w)) = attrs w /\
  attrs (snd (process_exception dtu self request exception w)) = attrs w /\
  attrs (snd (_trace_db_call execute sql params many context w)) = attrs w /\
  tracer_slot (snd (process_view dtu self request view_func w)) = tracer_slot w /\
  tracer_slot (snd (process_response dtu self request response w)) = tracer_slot w /\
  tracer_slot (snd (process_exception dtu self request exception w)) = tracer_slot w /\
  tracer_slot (snd (_trace_db_call execute sql params many context w)) = tracer_slot w.
Proof.
  split; [intros k; apply process_request_other_keys|].
  assert (Ha1 : stable attrs (process_view dtu self request view_func)) by frame.
  assert (Ha2 : stable attrs (process_response dtu self request response)) by frame.
  assert (Ha3 : stable attrs (process_exception dtu self request exception)) by frame.
  assert (Ha4 : stable attrs (_trace_db_call execute sql params many context))
    by frame.
  assert (Hs1 : stable tracer_slot (process_view dtu self request view_func))
    by frame.
  assert (Hs2 : stable tracer_slot (process_response dtu self request response))
    by frame.
  assert (Hs3 : stable tracer_slot (process_exception dtu self request exception))
    by frame.
  assert (Hs4 : stable tracer_slot (_trace_db_call execute sql params many context))
    by frame.
  repeat split; [apply Ha1|apply Ha2|apply Ha3|apply Ha4|apply Hs1|apply Hs2|
                 apply Hs3|apply Hs4].
Qed.

Lemma stable_lookup_update_span i s g :
  i <> s -> stable (fun w => spans w !! i) (update_span s g).
Proof.
  intros Hi w. unfold update_span. destruct (spans w !! s) as [sp|]; [|done].
  cbn [snd spans set_spans]. by rewrite list_lookup_insert_ne.
Qed.

Lemma stable_attribute_update_span k k' v s :
  k' <> k ->
  stable (span_view (fun sp => attributes sp !! k))
         (update_span s (with_attribute k' v)).
Proof.
  intros Hk. apply stable_span_view_update_span. intros sp.
  cbn [attributes with_attribute]. by rewrite lookup_insert_ne.
Qed.

(** X7: [_set_django_attributes] writes the two user attributes and nothing
    else, whatever the world, the schedule of failures and the thing it is
    given as a span: the store keeps its spans, each with its name, kind,
    status, parent, close count and every attribute under another key; when
    it is given the span [s], every other span is untouched; the context
    store, the tracers, the log, the exporter and the database are as they
    were. *)
Theorem set_django_attributes_writes_user_keys_only span request w :
  let w' := snd (_set_django_attributes span request w) in
  span_view name w' = span_view name w /\
  span_view span_kind w' = span_view span_kind w /\
  span_view status w' = span_view status w /\
  span_view parent_span w' = span_view parent_span w /\
  span_view end_count w' = span_view end_count w /\
  (forall k, k <> "django.user.id" -> k <> "django.user.name" ->
     span_view (fun sp => attributes sp !! k) w' =
     span_view (fun sp => attributes sp !! k) w) /\
  (forall s i, span = VSpan s -> i <> s -> spans w' !! i = spans w !! i) /\
  attrs w' = attrs w /\ tracer_slot w' = tracer_slot w /\ tracers w' = tracers w /\
  error_log w' = error_log w /\ exported w' = exported w /\
  database w' = database w.
Proof.
  intros w'. subst w'.
  assert (H1 : stable (span_view name) (_set_django_attributes span request))
    by frame.
  assert (H2 : stable (span_view span_kind) (_set_django_attributes span request))
    by frame.
  assert (H3 : stable (span_view status) (_set_django_attributes span request))
    by frame.
  assert (H4 : stable (span_view parent_span) (_set_django_attributes span request))
    by frame.
  assert (H5 : stable (span_view end_count) (_set_django_attributes span request))
    by frame.
  assert (H6 : forall k, k <> "django.user.id" -> k <> "django.user.name" ->
            stable (span_view (fun sp => attributes sp !! k))
                   (_set_django_attributes span request)).
  { intros k Hid Hname. unfold_middleware.
    eauto 80 using stable_attribute_update_span, not_eq_sym with frame. }
  assert (H7 : forall s i, span = VSpan s -> i <> s ->
            stable (fun w => spans w !! i) (_set_django_attributes span request)).
  { intros s i -> Hi. unfold_middleware.
    eauto 80 using stable_lookup_update_span with frame. }
  assert (H8 : stable attrs (_set_django_attributes span request)) by frame.
  assert (H9 : stable tracer_slot (_set_django_attributes span request)) by frame.
  assert (H10 : stable tracers (_set_django_attributes span request)) by frame.
  assert (H11 : stable error_log (_set_django_attributes span request)) by frame.
  assert (H12 : stable exported (_set_django_attributes span request)) by frame.
  assert (H13 : stable database (_set_django_attributes span request)) by frame.
  repeat split; try done.
  - intros k Hid Hname. by apply H6.
  - intros s i Hs Hi. by apply (H7 s i).
Qed.

(** ** The database call under every schedule of failures *)

(** X8: whatever the world and the schedule of failures, [_trace_db_call]
    makes the wrapped call at most once and invents no result: the database
    it leaves is the one it found or the one the call left, and when it
    returns rows, the call was made and returned these rows. *)
Theorem db_call_made_at_most_once execute sql params many context w :
  let r := _trace_db_call execute sql params many context w in
  let o := execute sql params many context (database w) in
  (database (snd r) = database w \/ database (snd r) = snd o) /\
  (forall rows, fst r = Ret rows -> fst o = Ret rows /\ database (snd r) = snd o).
Proof.
  intros r o. subst r o.
  destruct (execute sql params many context (database w)) as [res d] eqn:Ho.
  cbn [fst snd].
  set (Q := fun (rows : Rows) (w' : World) => res = Ret rows /\ database w' = d).
  set (E := fun (_ : PyException) (w' : World) =>
              database w' = database w \/ database w' = d).
  assert (Hwp : wp (_trace_db_call execute sql params many context) Q E w).
  { unfold _trace_db_call.
    apply wp_bind, wp_get_opencensus_tracer.
    destruct (tracer_slot w) as [t|].
    - do 7 (apply wp_bind;
            eapply (wp_stable database); [frame | eassumption || reflexivity | |
              by intros; unfold E; left]; intros ? ? ?).
      apply wp_try_finally, wp_try_except, wp_call.
      match goal with H : database ?x = database w |- context [database ?x] =>
        rewrite H end.
      rewrite Ho. destruct res as [rows|e].
      + eapply (wp_stable database); [frame|reflexivity| |]; intros ? ? Hd;
          unfold Q, E; rewrite Hd; cbn [database set_database]; auto.
      + apply wp_bind.
        eapply (wp_stable database); [frame|reflexivity| |]; intros ? ? Hd.
        * apply wp_raise.
          eapply (wp_stable database); [frame|exact Hd| |]; intros ? ? Hd';
            unfold E; rewrite Hd'; cbn [database set_database]; auto.
        * eapply (wp_stable database); [frame|exact Hd| |]; intros ? ? Hd';
            unfold E; rewrite Hd'; cbn [database set_database]; auto.
    - apply wp_call. rewrite Ho. unfold Q, E.
      destruct res as [rows|e]; cbn [database set_database]; auto. }
  unfold wp in Hwp.
  destruct (_trace_db_call execute sql params many context w) as [[rows|e] w'];
    cbn [fst snd]; subst Q E; cbn beta in Hwp.
  - destruct Hwp as [Hres Hd]. split; [by right|]. by intros ? [= <-].
  - split; [done|]. by intros.
Qed.

(** ** What the hooks record when the collaborators do not fail *)

(** X9: on a path that is not excluded, from any world, [process_request]
    makes a new tracer the tracer of the context, bound to the span context
    that the propagator of the middleware decodes from the [META] of this
    request (read through the carrier, also when that [META] is empty and
    whatever request the store held before) and to the sampler, exporter and
    propagator of the middleware; it opens one span, of kind SERVER, with the
    placeholder name, no status and no parent, whose attributes are exactly
    the host, the method, the path, the route (the path again) and the
    absolute URL of the request. It writes no log record, exports nothing and
    leaves the database alone. *)
Theorem process_request_opens_server_span dtu self request w :
  dtu (path request) (excludelist_paths self) = false ->
  faults w = [] ->
  let w' := snd (process_request dtu self request w) in
  exists T sp,
    tracers w' = (tracers w ++ [T])%list /\
    tracer_slot w' = Some (length (tracers w)) /\
    span_context T =
      from_headers (propagator self)
        (_DjangoMetaWrapper_get (mkMetaWrapper (META request))) /\
    tr_sampler T = sampler self /\ tr_exporter T = exporter self /\
    tr_propagator T = propagator self /\
    open_spans T = [length (spans w)] /\ finished_spans T = [] /\
    spans w' = (spans w ++ [sp])%list /\
    name sp = "span" /\ span_kind sp = SERVER /\ status sp = None /\
    parent_span sp = None /\ end_count sp = 0%nat /\
    attributes sp =
      <[HTTP_URL := AStr (absolute_uri request)]>
        (<[HTTP_ROUTE := AStr (path request)]>
           (<[HTTP_PATH := AStr (path request)]>
              (<[HTTP_METHOD := AStr (method request)]>
                 (<[HTTP_HOST := AStr (host request)]> ∅)))) /\
    error_log w' = error_log w /\ exported w' = exported w /\
    database w' = database w.
Proof.
  intros Hx Hf w'. subst w'. rewrite (process_request_run _ _ _ _ Hx Hf).
  exists (request_tracer self request (length (spans w))), (root_span request).
  by repeat split.
Qed.

Lemma process_request_opens_server_span_witness :
  exists T sp,
    tracers ex_traced_world = [T] /\
    trace_id (span_context T) = Some "00-0af7651916cd43dd8448eb211c80319c-01" /\
    spans ex_traced_world = [sp] /\
    attributes sp !! HTTP_ROUTE = Some (AStr "/orders/42").
Proof.
  assert (Hx : startswith_any (path ex_request) (excludelist_paths ex_middleware)
               = false) by reflexivity.
  assert (Hf : faults ex_world = []) by reflexivity.
  destruct (process_request_opens_server_span startswith_any ex_middleware
              ex_request ex_world Hx Hf)
    as (T & sp & HT & _ & Hctx & _ & _ & _ & _ & _ & Hsp & _ & _ & _ & _ & _ &
        Hattrs & _).
  exists T, sp. split; [exact HT|]. split; [by rewrite Hctx|].
  split; [exact Hsp|]. rewrite Hattrs. reflexivity.
Defined.

(** X10: on a path that is not excluded, [process_view] gives the name of
    the view function to the current span of the tracer of the context (which
    is the span of the request only as long as no other span is open) and
    changes nothing else: the other fields of that span, the other spans, the
    tracers, the context store, the log, the exporter and the database are as
    they were. *)
Theorem process_view_names_current_span dtu self request view_func t T s rest sp w :
  dtu (path request) (excludelist_paths self) = false ->
  faults w = [] ->
  tracer_slot w = Some t -> tracers w !! t = Some T -> open_spans T = s :: rest ->
  spans w !! s = Some sp ->
  let w' := snd (process_view dtu self request view_func w) in
  fst (process_view dtu self request view_func w) = Ret tt /\
  (exists sp',
     spans w' = <[s := sp']> (spans w) /\
     name sp' = func_name view_func /\
     span_kind sp' = span_kind sp /\ status sp' = status sp /\
     attributes sp' = attributes sp /\ parent_span sp' = parent_span sp /\
     end_count sp' = end_count sp) /\
  tracers w' = tracers w /\ tracer_slot w' = tracer_slot w /\ attrs w' = attrs w /\
  error_log w' = error_log w /\ exported w' = exported w /\
  database w' = database w.
Proof.
  intros Hx Hf Hslot HT Ho Hs w'. subst w'.
  rewrite (process_view_run _ _ _ view_func _ _ _ _ _ _ Hx Hf Hslot HT Ho Hs).
  cbn [fst snd]. split; [done|]. split; [|done].
  by exists (with_name (func_name view_func) sp).
Qed.

Lemma process_view_names_current_span_witness :
  let w' := snd (process_view startswith_any ex_middleware ex_request ex_view
                   ex_child_open_world) in
  name <$> spans w' = ["span"; "OrdersView"].
Proof.
  assert (Hx : startswith_any (path ex_request) (excludelist_paths ex_middleware)
               = false) by reflexivity.
  assert (Hf : faults ex_child_open_world = []) by reflexivity.
  assert (Hslot : tracer_slot ex_child_open_world = Some 0%nat) by reflexivity.
  destruct (process_view_names_current_span startswith_any ex_middleware ex_request
              ex_view 0%nat
              (with_open_spans [1%nat; 0%nat]
                 (request_tracer ex_middleware ex_request 0))
              1%nat [0%nat] (new_span (Some 0%nat)) ex_child_open_world
              Hx Hf Hslot eq_refl eq_refl eq_refl)
    as (_ & (sp' & Hspans & Hname & _) & _).
  intros w'. subst w'. rewrite Hspans.
  change (spans ex_child_open_world)
    with [root_span ex_request; new_span (Some 0%nat)].
  cbn. by rewrite Hname.
Defined.

(** X11: every instrumented database call leaves a child span whose
    attributes are exactly the vendor of the connection under [component],
    its alias under [db.instance], the text of the statement under
    [db.statement] and [sql] under [db.type]: the parameters of the statement
    and the batch flag are not recorded. *)
Theorem db_call_span_attributes execute sql params many context t T w :
  faults w = [] -> tracer_slot w = Some t -> tracers w !! t = Some T ->
  exists child,
    spans (snd (_trace_db_call execute sql params many context w)) =
      (spans w ++ [child])%list /\
    attributes child =
      <["db.type" := AStr "sql"]>
        (<["db.statement" := AStr sql]>
           (<["db.instance" := AStr (alias (connection context))]>
              (<["component" := AStr (vendor (connection context))]> ∅))).
Proof.
  intros Hf Hslot HT.
  rewrite (_trace_db_call_run _ _ _ _ _ _ _ _ Hf Hslot HT).
  destruct (execute sql params many context (database w)) as [[rows|e] d];
    eexists; by split.
Qed.

Lemma db_call_span_attributes_witness :
  exists child,
    spans (snd (_trace_db_call ex_select "SELECT 1" ["secret"] false ex_context
                  ex_traced_world)) = (spans ex_traced_world ++ [child])%list /\
    attributes child !! "db.statement" = Some (AStr "SELECT 1") /\
    size (attributes child) = 4%nat.
Proof.
  destruct (db_call_span_attributes ex_select "SELECT 1" ["secret"] false ex_context
              0%nat (request_tracer ex_middleware ex_request 0) ex_traced_world
              eq_refl eq_refl eq_refl) as (child & Hspans & Hattrs).
  exists child. split; [exact Hspans|]. rewrite Hattrs.
  split; vm_compute; reflexivity.
Defined.

Lemma process_response_run_other dtu self request response t T r c rest sp spc w :
  dtu (path request) (excludelist_paths self) = false ->
  faults w = [] ->
  attrs w !! SPAN_THREAD_LOCAL_KEY = Some (VSpan r) ->
  spans w !! r = Some sp ->
  tracer_slot w = Some t -> tracers w !! t = Some T -> open_spans T = c :: rest ->
  c <> r -> spans w !! c = Some spc ->
  process_response dtu self request response w =
  (Ret response,
   set_exported (fun l => l ++ [finished_spans T ++ [c]])
     (set_tracers (fun l =>
        <[t := with_finished (finished_spans T ++ [c]) (with_open_spans rest T)]> l)
        (set_spans (fun l => <[c := closed spc]>
                               (<[r := with_response request response sp]> l)) w))).
Proof.
  intros Hx Hf Ha Hs Hslot Ht Ho Hc Hsc. open_world w. apply wp_run.
  unfold process_response. rewrite Hx.
  apply wp_finally_return, wp_try_except.
  apply wp_bind, wp_get_opencensus_attr. world_simpl. rewrite Ha.
  cbn [default from_option id].
  step wp_add_attribute.
  step wp__set_django_attributes.
  apply wp_bind, wp_get_opencensus_tracer. world_simpl.
  apply wp_bind.
  eapply wp_end_span with (sp := spc); [side|side|side| |]; world_simpl.
  { by rewrite !list_lookup_insert_ne. }
  last_step wp_finish.
  unfold with_response. by rewrite !list_insert_insert_eq.
Qed.

(** X12: [process_response] puts the status code and the user attributes on
    the span kept in the context store, and closes the current span of the
    tracer. When another span [c] was left open above the span [r] of the
    request, it is [c] that is closed, without the status code, and handed to
    the exporter; [r] gets the status code and stays open, below [c]'s
    successors on the stack. *)
Theorem process_response_closes_current_span dtu self request response t T r c rest
    sp spc w :
  dtu (path request) (excludelist_paths self) = false ->
  faults w = [] ->
  attrs w !! SPAN_THREAD_LOCAL_KEY = Some (VSpan r) ->
  spans w !! r = Some sp ->
  tracer_slot w = Some t -> tracers w !! t = Some T -> open_spans T = c :: rest ->
  c <> r -> spans w !! c = Some spc ->
  let w' := snd (process_response dtu self request response w) in
  (exists sp',
     spans w' !! r = Some sp' /\
     attributes sp' !! HTTP_STATUS_CODE = Some (AInt (status_code response)) /\
     end_count sp' = end_count sp) /\
  (exists spc',
     spans w' !! c = Some spc' /\
     attributes spc' = attributes spc /\
     end_count spc' = S (end_count spc)) /\
  open_spans <$> tracers w' !! t = Some rest /\
  exported w' = (exported w ++ [finished_spans T ++ [c]])%list /\
  error_log w' = error_log w.
Proof.
  intros Hx Hf Ha Hs Hslot HT Ho Hc Hsc w'. subst w'.
  rewrite (process_response_run_other _ _ _ response _ _ _ _ _ _ _ _
             Hx Hf Ha Hs Hslot HT Ho Hc Hsc).
  cbn [snd spans tracers exported error_log set_exported set_tracers set_spans].
  assert (Hr : (r < length (spans w))%nat) by by eapply lookup_lt_Some.
  assert (Hlc : (c < length (spans w))%nat) by by eapply lookup_lt_Some.
  repeat split.
  - exists (with_response request response sp).
    rewrite list_lookup_insert_ne by done.
    rewrite list_lookup_insert_eq by done. split; [done|].
    unfold with_response. rewrite with_user_keeps by done.
    rewrite with_user_end_count. cbn [attributes with_attribute end_count].
    by rewrite lookup_insert_eq.
  - exists (closed spc).
    by rewrite list_lookup_insert_eq by by rewrite length_insert.
  - rewrite list_lookup_insert_eq by by eapply lookup_lt_Some. done.
Qed.

Lemma process_response_closes_current_span_witness :
  let w' := snd (process_response startswith_any ex_middleware ex_request ex_response
                   ex_child_open_world) in
  end_count <$> spans w' = [0%nat; 1%nat] /\
  exported w' = [[1%nat]].
Proof.
  assert (Hx : startswith_any (path ex_request) (excludelist_paths ex_middleware)
               = false) by reflexivity.
  assert (Hf : faults ex_child_open_world = []) by reflexivity.
  assert (Ha : attrs ex_child_open_world !! SPAN_THREAD_LOCAL_KEY = Some (VSpan 0))
    by (vm_compute; reflexivity).
  assert (Hc : 1%nat <> 0%nat) by discriminate.
  destruct (process_response_closes_current_span startswith_any ex_middleware
              ex_request ex_response 0%nat
              (with_open_spans [1%nat; 0%nat]
                 (request_tracer ex_middleware ex_request 0))
              0%nat 1%nat [0%nat] (root_span ex_request) (new_span (Some 0%nat))
              ex_child_open_world Hx Hf Ha eq_refl eq_refl eq_refl eq_refl Hc eq_refl)
    as (_ & _ & _ & Hexp & _).
  split; [vm_compute; reflexivity|exact Hexp].
Defined.

(** ** A whole request when the collaborators do not fail *)

Lemma request_footprint_opened self request w :
  request_footprint w 0 (request_opened self request w).
Proof.
  unfold request_footprint, request_opened, request_recorded.
  cbn [spans tracers exported error_log set_attrs set_spans set_tracer_slot
       set_tracers].
  repeat split.
  - by rewrite take_app_length.
  - rewrite length_app. cbn [length]. lia.
  - by rewrite take_app_length.
  - rewrite length_app. cbn [length]. lia.
  - by rewrite lookup_appended.
  - intros i sp Hi Hsp. apply lookup_lt_Some in Hsp.
    rewrite length_app in Hsp. cbn [length] in Hsp. lia.
Qed.

Lemma request_footprint_update w0 k w sp' :
  request_footprint w0 k w ->
  request_footprint w0 k (set_spans (fun l => <[length (spans w0) := sp']> l) w).
Proof.
  intros (Hpre & Hlen & Htpre & Htlen & Hfin & Hkids & Hexp & Hlog).
  unfold request_footprint.
  cbn [spans tracers exported error_log set_spans].
  repeat split; try done.
  - by rewrite take_insert_ge.
  - by rewrite length_insert.
  - intros i sp Hi Hsp. rewrite list_lookup_insert_ne in Hsp by lia.
    by eapply Hkids.
Qed.

Lemma request_footprint_query w0 k w T c d :
  request_footprint w0 k w ->
  tracers w !! length (tracers w0) = Some T ->
  end_count c = 0%nat ->
  request_footprint w0 (S k) (query_traced (length (tracers w0)) T c d w).
Proof.
  intros (Hpre & Hlen & Htpre & Htlen & Hfin & Hkids & Hexp & Hlog) HT Hc.
  unfold request_footprint, query_traced.
  cbn [spans tracers exported error_log set_spans set_tracers set_database].
  rewrite HT in Hfin. injection Hfin as Hfin.
  repeat split; try done.
  - rewrite take_app_le by lia. done.
  - rewrite length_app. cbn [length]. lia.
  - by rewrite take_insert_ge.
  - by rewrite length_insert.
  - rewrite list_lookup_insert_eq by lia.
    cbn [fmap option_fmap option_map finished_spans with_finished].
    rewrite Hfin, Hlen, seq_S. do 3 f_equal. lia.
  - intros i sp Hi Hsp.
    destruct (decide (i < length (spans w))%nat) as [Hin|Hout].
    + rewrite lookup_app_l in Hsp by done. by eapply Hkids.
    + assert (i = length (spans w)) as ->.
      { apply lookup_lt_Some in Hsp. rewrite length_app in Hsp.
        cbn [length] in Hsp. lia. }
      rewrite lookup_appended in Hsp. injection Hsp as <-.
      cbn [closed end_count]. by rewrite Hc.
Qed.

Lemma run_event_footprint dtu self request ev w0 k w :
  dtu (path request) (excludelist_paths self) = false ->
  request_open (length (spans w0)) (length (tracers w0)) w ->
  request_footprint w0 k w ->
  request_footprint w0 (count_queries [ev] + k)
    (snd (run_event dtu self request ev w)) /\
  database (snd (run_event dtu self request ev w)) = run_queries [ev] (database w).
Proof.
  intros Hx Hopen Hfoot.
  pose proof Hopen as (Hf & Hslot & Ha & (T & HT & Ho) & (sp & Hs & Hend & Hpar) & _).
  destruct ev as [view_func|execute sql params many context|exception];
    cbn [run_event count_queries run_queries].
  - erewrite process_view_run by done. cbn [snd].
    split; [by apply request_footprint_update|done].
  - rewrite discarded_outcome.
    rewrite (_trace_db_call_run _ _ _ _ _ _ _ _ Hf Hslot HT).
    destruct (execute sql params many context (database w)) as [[rows|e] d];
      cbn [snd]; (split; [by apply request_footprint_query|done]).
  - erewrite process_exception_run by done. cbn [snd].
    split; [by apply request_footprint_update|done].
Qed.

Lemma run_event_returns dtu self request ev w :
  dtu (path request) (excludelist_paths self) = false ->
  fst (run_event dtu self request ev w) = Ret tt.
Proof.
  intros Hx. destruct ev; cbn [run_event].
  - unfold process_view. rewrite Hx. apply guarded_outcome.
  - unfold try_except, bind, ret.
    by destruct (_trace_db_call _ _ _ _ _ w) as [[a|e] w1].
  - unfold process_exception. rewrite Hx. apply guarded_outcome.
Qed.

Lemma run_events_footprint dtu self request evs w0 k w :
  dtu (path request) (excludelist_paths self) = false ->
  request_open (length (spans w0)) (length (tracers w0)) w ->
  request_footprint w0 k w ->
  fst (run_events dtu self request evs w) = Ret tt /\
  request_footprint w0 (count_queries evs + k)
    (snd (run_events dtu self request evs w)) /\
  database (snd (run_events dtu self request evs w)) = run_queries evs (database w).
Proof.
  intros Hx. revert k w. induction evs as [|ev evs IH]; intros k w Hopen Hfoot;
    [done|].
  cbn [run_events]. unfold bind.
  pose proof (run_event_keeps_open dtu self request ev _ _ w Hx Hopen) as Hopen'.
  pose proof (run_event_footprint dtu self request ev w0 k w Hx Hopen Hfoot)
    as [Hfoot' Hdb].
  pose proof (run_event_returns dtu self request ev w Hx) as Hret.
  destruct (run_event dtu self request ev w) as [[[]|e] w1]; [|done].
  cbn [fst snd] in *.
  destruct (IH _ w1 Hopen' Hfoot') as (Hret2 & Hfoot2 & Hdb2).
  split; [done|]. split.
  - replace (count_queries (ev :: evs) + k)%nat
      with (count_queries evs + (count_queries [ev] + k))%nat; [done|].
    destruct ev; cbn [count_queries]; lia.
  - rewrite Hdb2, Hdb. by destruct ev.
Qed.

Lemma request_served dtu self request evs response w :
  dtu (path request) (excludelist_paths self) = false ->
  faults w = [] ->
  let root := length (spans w) in
  let t := length (tracers w) in
  let w2 := snd (run_events dtu self request evs (request_opened self request w)) in
  process_request dtu self request w = (Ret tt, request_opened self request w) /\
  fst (run_events dtu self request evs (request_opened self request w)) = Ret tt /\
  request_open root t w2 /\
  request_footprint w (count_queries evs) w2 /\
  database w2 = run_queries evs (database w) /\
  exists T sp,
    tracers w2 !! t = Some T /\ open_spans T = [root] /\
    finished_spans T = seq (S root) (count_queries evs) /\
    spans w2 !! root = Some sp /\ end_count sp = 0%nat /\
    process_response dtu self request response w2 =
    (Ret response,
     set_exported (fun l => l ++ [finished_spans T ++ [root]])
       (set_tracers (fun l =>
          <[t := with_finished (finished_spans T ++ [root]) (with_open_spans [] T)]> l)
          (set_spans (fun l => <[root := closed (with_response request response sp)]> l)
             w2))).
Proof.
  intros Hx Hf root t w2. subst w2.
  split; [by apply process_request_run|].
  pose proof (request_opened_open self request w Hf) as Hopen1.
  pose proof (request_footprint_opened self request w) as Hfoot1.
  destruct (run_events_footprint dtu self request evs w 0 _ Hx Hopen1 Hfoot1)
    as (Hret & Hfoot2 & Hdb).
  pose proof (run_events_keep_open dtu self request evs _ _ _ Hx Hopen1) as Hopen2.
  rewrite Nat.add_0_r in Hfoot2.
  split; [done|]. split; [done|]. split; [done|]. split; [done|].
  destruct Hopen2 as (Hf2 & Hslot2 & Ha2 & (T & HT & Ho) & (sp & Hs & Hend & _) & _).
  exists T, sp.
  destruct Hfoot2 as (_ & _ & _ & _ & Hfin & _).
  fold t in HT, Hfin. rewrite HT in Hfin. injection Hfin as Hfin.
  repeat split; try done.
  by apply process_response_run.
Qed.

(** X13: a request on a path that is not excluded, served from start to end
    with collaborators that do not fail, never changes a span or a tracer
    that was in the stores before it: the stores it leaves are the old ones
    followed by one new tracer and by one span for the request and one for
    each database call the view made. *)
Theorem request_leaves_earlier_spans_alone dtu self request evs response w :
  dtu (path request) (excludelist_paths self) = false ->
  faults w = [] ->
  let w1 := snd (process_request dtu self request w) in
  let w2 := snd (run_events dtu self request evs w1) in
  let w3 := snd (process_response dtu self request response w2) in
  take (length (spans w)) (spans w3) = spans w /\
  length (spans w3) = (length (spans w) + 1 + count_queries evs)%nat /\
  take (length (tracers w)) (tracers w3) = tracers w /\
  length (tracers w3) = S (length (tracers w)).
Proof.
  intros Hx Hf w1 w2 w3. subst w3 w2 w1.
  destruct (request_served dtu self request evs response w Hx Hf)
    as (Hreq & _ & _ & Hfoot & _ & (T & sp & _ & _ & _ & _ & _ & Hresp)).
  rewrite Hreq. cbn [snd]. rewrite Hresp.
  destruct Hfoot as (Hpre & Hlen & Htpre & Htlen & _).
  cbn [snd spans tracers set_exported set_tracers set_spans].
  rewrite !take_insert_ge, !length_insert by done. done.
Qed.

Lemma request_leaves_earlier_spans_alone_witness :
  let evs := [EQuery ex_select "SELECT 1" [] false ex_context;
              EQuery ex_failing "SELECT 2" [] true ex_context] in
  let w1 := snd (process_request startswith_any ex_middleware ex_request
                   ex_served_world) in
  let w2 := snd (run_events startswith_any ex_middleware ex_request evs w1) in
  let w3 := snd (process_response startswith_any ex_middleware ex_request
                   ex_response w2) in
  take 1 (spans w3) = spans ex_served_world /\ length (spans w3) = 4%nat.
Proof.
  intros evs w1 w2 w3.
  assert (Hx : startswith_any (path ex_request) (excludelist_paths ex_middleware)
               = false) by reflexivity.
  assert (Hf : faults ex_served_world = []) by reflexivity.
  destruct (request_leaves_earlier_spans_alone startswith_any ex_middleware
              ex_request evs ex_response ex_served_world Hx Hf)
    as (Hpre & Hlen & _).
  split; [exact Hpre|exact Hlen].
Defined.

(** X14: in such a request every span it opened, the one of the request and
    the one of each database call, is closed exactly once when
    [process_response] returns; the tracer has no span open; the exporter has
    received one batch more, which holds the spans of the database calls in
    the order of the calls, then the span of the request. *)
Theorem request_spans_closed_and_exported_once dtu self request evs response w :
  dtu (path request) (excludelist_paths self) = false ->
  faults w = [] ->
  let root := length (spans w) in
  let w1 := snd (process_request dtu self request w) in
  let w2 := snd (run_events dtu self request evs w1) in
  let w3 := snd (process_response dtu self request response w2) in
  (forall i, (root <= i < length (spans w3))%nat ->
     end_count <$> spans w3 !! i = Some 1%nat) /\
  open_spans <$> tracers w3 !! length (tracers w) = Some [] /\
  exported w3 =
    (exported w ++ [seq (S root) (count_queries evs) ++ [root]])%list.
Proof.
  intros Hx Hf root w1 w2 w3. subst w3 w2 w1.
  destruct (request_served dtu self request evs response w Hx Hf)
    as (Hreq & _ & _ & Hfoot & _ & (T & sp & HT & _ & Hfin & Hs & Hend & Hresp)).
  rewrite Hreq. cbn [snd]. rewrite Hresp.
  destruct Hfoot as (_ & _ & _ & _ & _ & Hkids & Hexp & _).
  cbn [snd spans tracers exported set_exported set_tracers set_spans].
  fold root in Hs, Hkids |- *. split; [|split].
  - intros i Hi. rewrite length_insert in Hi.
    destruct (decide (i = root)) as [->|Hne].
    + erewrite lookup_updated by done.
      cbn [fmap option_fmap option_map closed end_count].
      unfold with_response. rewrite with_user_end_count.
      cbn [end_count with_attribute]. by rewrite Hend.
    + rewrite list_lookup_insert_ne by done.
      destruct (lookup_lt_is_Some_2 _ i (proj2 Hi)) as [spi Hspi].
      rewrite Hspi. cbn [fmap option_fmap option_map]. f_equal.
      eapply Hkids; [|done]. lia.
  - by erewrite lookup_updated by done.
  - by rewrite Hexp, Hfin.
Qed.

Lemma request_spans_closed_and_exported_once_witness :
  let evs := [EQuery ex_select "SELECT 1" [] false ex_context;
              EView ex_view;
              EQuery ex_failing "SELECT 2" [] true ex_context;
              EException ex_boom] in
  let w1 := snd (process_request startswith_any ex_middleware ex_request ex_world) in
  let w2 := snd (run_events startswith_any ex_middleware ex_request evs w1) in
  let w3 := snd (process_response startswith_any ex_middleware ex_request
                   ex_response w2) in
  exported w3 = [[1%nat; 2%nat; 0%nat]].
Proof.
  intros evs w1 w2 w3.
  assert (Hx : startswith_any (path ex_request) (excludelist_paths ex_middleware)
               = false) by reflexivity.
  assert (Hf : faults ex_world = []) by reflexivity.
  destruct (request_spans_closed_and_exported_once startswith_any ex_middleware
              ex_request evs ex_response ex_world Hx Hf) as (_ & _ & Hexp).
  exact Hexp.
Defined.

Lemma serve_unfold dtu self request evs response w :
  dtu (path request) (excludelist_paths self) = false ->
  faults w = [] ->
  serve dtu self request evs response w =
  process_response dtu self request response
    (snd (run_events dtu self request evs (request_opened self request w))).
Proof.
  intros Hx Hf.
  destruct (request_served dtu self request evs response w Hx Hf)
    as (Hreq & Hret & _).
  unfold serve, bind. rewrite Hreq.
  by destruct (run_events dtu self request evs (request_opened self request w))
    as [[[]|e] w2].
Qed.

(** X15: a request on a path that is not excluded, served with collaborators
    that do not fail, is invisible to the application: the response comes
    back as given, the database is what the database calls of the view make
    of it when they run without the wrapper, and no log record is written. *)
Theorem traced_request_is_transparent dtu self request evs response w :
  dtu (path request) (excludelist_paths self) = false ->
  faults w = [] ->
  fst (serve dtu self request evs response w) = Ret response /\
  database (snd (serve dtu self request evs response w)) =
    run_queries evs (database w) /\
  error_log (snd (serve dtu self request evs response w)) = error_log w.
Proof.
  intros Hx Hf. rewrite (serve_unfold _ _ _ _ _ _ Hx Hf).
  destruct (request_served dtu self request evs response w Hx Hf)
    as (_ & _ & _ & Hfoot & Hdb & (T & sp & _ & _ & _ & _ & _ & Hresp)).
  rewrite Hresp. destruct Hfoot as (_ & _ & _ & _ & _ & _ & _ & Hlog).
  by cbn [fst snd database error_log set_exported set_tracers set_spans].
Qed.

Lemma traced_request_is_transparent_witness :
  let evs := [EQuery ex_select "SELECT 1" [] false ex_context;
              EException ex_boom;
              EQuery ex_failing "SELECT 2" [] true ex_context;
              EQuery ex_select "SELECT 3" [] false ex_context] in
  database (snd (serve startswith_any ex_middleware ex_request evs ex_response
                   ex_world)) = ["SELECT 1"; "SELECT 3"] /\
  error_log (snd (serve startswith_any ex_middleware ex_request evs ex_response
                    ex_world)) = [].
Proof.
  intros evs.
  assert (Hx : startswith_any (path ex_request) (excludelist_paths ex_middleware)
               = false) by reflexivity.
  assert (Hf : faults ex_world = []) by reflexivity.
  destruct (traced_request_is_transparent startswith_any ex_middleware ex_request
              evs ex_response ex_world Hx Hf) as (_ & Hdb & Hlog).
  split; [exact Hdb|exact Hlog].
Defined.

(** X16: nothing is taken out of the execution context when a request ends.
    After a request served with collaborators that do not fail, the tracer of
    that request is still the tracer of the context and the store still
    holds the request and its span, now closed. A database call made
    afterwards, also between the hooks of a request on an excluded path, is
    therefore still wrapped: the caller gets the outcome of the call, a span
    without parent is added to the store and closed, and the call hands
    nothing to the exporter. *)
Theorem context_survives_the_request dtu self request evs response w :
  dtu (path request) (excludelist_paths self) = false ->
  faults w = [] ->
  let root := length (spans w) in
  let w3 := snd (serve dtu self request evs response w) in
  tracer_slot w3 = Some (length (tracers w)) /\
  attrs w3 !! REQUEST_THREAD_LOCAL_KEY = Some (VRequest request) /\
  attrs w3 !! SPAN_THREAD_LOCAL_KEY = Some (VSpan root) /\
  end_count <$> spans w3 !! root = Some 1%nat /\
  (forall other execute sql params many context,
     dtu (path other) (excludelist_paths self) = true ->
     let r := (process_request dtu self other ;;;
               _trace_db_call execute sql params many context) w3 in
     fst r = fst (execute sql params many context (database w3)) /\
     exported (snd r) = exported w3 /\
     exists child,
       spans (snd r) = (spans w3 ++ [child])%list /\
       parent_span child = None /\ end_count child = 1%nat /\
       name child = vendor (connection context) +:+ ".query").
Proof.
  intros Hx Hf root w3. subst w3. rewrite (serve_unfold _ _ _ _ _ _ Hx Hf).
  destruct (request_served dtu self request evs response w Hx Hf)
    as (_ & _ & Hopen & _ & _ & (T & sp & HT & Ho & _ & Hs & Hend & Hresp)).
  rewrite Hresp. clear Hresp.
  destruct Hopen as (Hf2 & Hslot2 & Ha2 & _).
  set (w2 := snd (run_events dtu self request evs (request_opened self request w)))
    in *.
  assert (Hreq : attrs w2 !! REQUEST_THREAD_LOCAL_KEY = Some (VRequest request)).
  { assert (Hst : stable attrs (run_events dtu self request evs)).
    { clear. induction evs as [|ev evs IH]; cbn [run_events]; [frame|].
      apply stable_bind; [|by intros _].
      destruct ev; cbn [run_event]; frame. }
    unfold w2. rewrite Hst. unfold request_opened. cbn [attrs set_attrs].
    rewrite lookup_insert_ne by done. apply request_recorded_request. }
  cbn [snd attrs tracer_slot spans set_exported set_tracers set_spans].
  split; [done|]. split; [done|]. split; [done|]. split.
  { erewrite lookup_updated by done.
    cbn [fmap option_fmap option_map closed end_count].
    unfold with_response. rewrite with_user_end_count.
    cbn [end_count with_attribute]. by rewrite Hend. }
  intros other execute sql params many context Hother.
  unfold bind, process_request. rewrite Hother. cbn [ret].
  erewrite _trace_db_call_run; cycle 1.
  - exact Hf2.
  - exact Hslot2.
  - cbn [tracers set_exported set_tracers set_spans].
    apply list_lookup_insert_eq. by eapply lookup_lt_Some.
  - cbn [database set_exported set_tracers set_spans].
    destruct (execute sql params many context (database w2)) as [[rows|e] d];
      cbn [fst snd]; unfold query_traced;
      cbn [exported spans set_database set_tracers set_spans set_exported];
      (split; [done|]); (split; [done|]); eexists; by repeat split.
Qed.

Lemma context_survives_the_request_witness :
  let w3 := snd (serve startswith_any ex_middleware ex_request [] ex_response
                   ex_world) in
  let r := (process_request startswith_any ex_middleware ex_health_request ;;;
            _trace_db_call ex_select "SELECT 1" [] false ex_context) w3 in
  tracer_slot w3 = Some 0%nat /\
  fst r = Ret ["SELECT 1"] /\
  length (spans (snd r)) = 2%nat /\
  exported (snd r) = [[0%nat]].
Proof.
  intros w3 r.
  assert (Hx : startswith_any (path ex_request) (excludelist_paths ex_middleware)
               = false) by reflexivity.
  assert (Hf : faults ex_world = []) by reflexivity.
  destruct (context_survives_the_request startswith_any ex_middleware ex_request
              [] ex_response ex_world Hx Hf) as (Hslot & _ & _ & _ & Hlater).
  destruct (Hlater ex_health_request ex_select "SELECT 1" [] false ex_context
              eq_refl) as (Hout & Hexp & child & Hspans & _).
  split; [exact Hslot|]. split; [exact Hout|]. split; [|exact Hexp].
  fold w3 in Hspans. fold r in Hspans. rewrite Hspans, length_app. reflexivity.
Defined.

(** ** Spans opened and closed, under every schedule of failures *)

Section Growth.
Context {A B : Type} (f : World -> nat).

Lemma grows_stable (m : M A) : stable f m -> grows f 0 m.
Proof. intros Hm w. rewrite Hm. lia. Qed.

Lemma grows_weaken a b (m : M A) : (a <= b)%nat -> grows f a m -> grows f b m.
Proof. intros Hab Hm w. specialize (Hm w). lia. Qed.

Lemma grows_bind a b (m : M A) (k : A -> M B) :
  grows f a m -> (forall x, grows f b (k x)) -> grows f (a + b) (bind m k).
Proof.
  intros Hm Hk w. specialize (Hm w). unfold bind.
  destruct (m w) as [[x|e] w1]; cbn [snd] in *; [|lia].
  specialize (Hk x w1). lia.
Qed.

Lemma grows_bind_l n (m : M A) (k : A -> M B) :
  stable f m -> (forall x, grows f n (k x)) -> grows f n (bind m k).
Proof.
  intros Hm Hk w. unfold bind. pose proof (Hm w) as Hw.
  destruct (m w) as [[x|e] w1]; cbn [snd] in *; [|lia].
  specialize (Hk x w1). lia.
Qed.

Lemma grows_bind_r n (m : M A) (k : A -> M B) :
  grows f n m -> (forall x, stable f (k x)) -> grows f n (bind m k).
Proof.
  intros Hm Hk w. unfold bind. specialize (Hm w).
  destruct (m w) as [[x|e] w1]; cbn [snd] in *; [|lia].
  rewrite (Hk x w1). lia.
Qed.

Lemma grows_try_except a b (m : M A) h :
  grows f a m -> (forall e, grows f b (h e)) -> grows f (a + b) (try_except m h).
Proof.
  intros Hm Hh w. specialize (Hm w). unfold try_except.
  destruct (m w) as [[x|e] w1]; cbn [snd] in *; [lia|].
  specialize (Hh e w1). lia.
Qed.

Lemma grows_try_finally a b (m : M A) fin :
  grows f a m -> grows f b fin -> grows f (a + b) (try_finally m fin).
Proof.
  intros Hm Hfin w. specialize (Hm w). unfold try_finally.
  destruct (m w) as [o w1]; cbn [snd] in *. specialize (Hfin w1).
  destruct (fin w1) as [[[]|e] w2]; cbn [snd] in *; lia.
Qed.

Lemma grows_finally_return n (m : M A) (v : B) :
  grows f n m -> grows f n (finally_return m v).
Proof. intros Hm w. apply Hm. Qed.

End Growth.

Lemma sum_list_with_insert {X} (g : X -> nat) (l : list X) s x y :
  l !! s = Some x ->
  (sum_list_with g (<[s := y]> l) + g x = sum_list_with g l + g y)%nat.
Proof.
  revert s. induction l as [|z l IH]; intros [|s] Hs; try done.
  - injection Hs as ->. simpl. lia.
  - simpl in *. specialize (IH s Hs). lia.
Qed.

Lemma stable_span_count_update_span s g : stable span_count (update_span s g).
Proof.
  intros w. unfold update_span, span_count.
  destruct (spans w !! s); [|done]. cbn [snd spans set_spans].
  apply length_insert.
Qed.

Lemma stable_total_closes_update_span s g :
  (forall sp, end_count (g sp) = end_count sp) ->
  stable total_closes (update_span s g).
Proof.
  intros Hg w. unfold update_span, total_closes.
  destruct (spans w !! s) as [sp|] eqn:Hs; [|done]. cbn [snd spans set_spans].
  pose proof (sum_list_with_insert end_count _ _ _ (g sp) Hs) as Hsum.
  rewrite Hg in Hsum. lia.
Qed.

Lemma grows_total_closes_close s : grows total_closes 1 (update_span s closed).
Proof.
  intros w. unfold update_span, total_closes.
  destruct (spans w !! s) as [sp|] eqn:Hs; cbn [snd spans set_spans]; [|lia].
  pose proof (sum_list_with_insert end_count _ _ _ (closed sp) Hs) as Hsum.
  cbn [closed end_count] in Hsum. lia.
Qed.

Lemma stable_span_count_add_attribute_to_current_span tracer k v :
  stable span_count (add_attribute_to_current_span tracer k v).
Proof.
  apply stable_tracer_call; [by intros ? ?|]. intros t T.
  destruct (open_spans T); [apply stable_raise|apply stable_span_count_update_span].
Qed.

Lemma stable_total_closes_add_attribute_to_current_span tracer k v :
  stable total_closes (add_attribute_to_current_span tracer k v).
Proof.
  apply stable_tracer_call; [by intros ? ?|]. intros t T.
  destruct (open_spans T); [apply stable_raise|].
  by apply stable_total_closes_update_span.
Qed.

Lemma stable_span_count_end_span tracer : stable span_count (end_span tracer).
Proof.
  apply stable_tracer_call; [by intros ? ?|]. intros t T.
  destruct (open_spans T); [apply stable_ret|].
  apply stable_bind; [apply stable_span_count_update_span|]. by intros _ w.
Qed.

Lemma stable_total_closes_start_span tracer : stable total_closes (start_span tracer).
Proof.
  apply stable_tracer_call; [by intros ? ?|]. intros t T w.
  unfold total_closes. cbn [snd spans set_tracers set_spans].
  rewrite sum_list_with_app. cbn. lia.
Qed.

Lemma grows_tracer_call {A} (f : World -> nat) n tracer
    (k : nat -> Tracer -> M A) :
  ignores f set_faults -> (forall t T, grows f n (k t T)) ->
  grows f n (tracer_call tracer k).
Proof.
  intros Hf Hk. unfold tracer_call. destruct tracer as [t|].
  - apply grows_bind_l; [by apply stable_collaborator|].
    intros _ w. destruct (tracers w !! t) as [T|]; [apply Hk|cbn [snd]; lia].
  - intros w. cbn [raise snd]. lia.
Qed.

Lemma grows_span_count_start_span tracer : grows span_count 1 (start_span tracer).
Proof.
  apply grows_tracer_call; [by intros ? ?|]. intros t T w.
  unfold span_count. cbn [snd]. world_simpl. rewrite length_app. cbn [length]. lia.
Qed.

Lemma grows_total_closes_end_span tracer : grows total_closes 1 (end_span tracer).
Proof.
  apply grows_tracer_call; [by intros ? ?|]. intros t T.
  destruct (open_spans T) as [|s rest].
  - intros w. cbn [ret snd]. lia.
  - apply grows_bind_r; [apply grows_total_closes_close|]. by intros _ w.
Qed.

Lemma stable_total_closes_with_name s n :
  stable total_closes (update_span s (with_name n)).
Proof. by apply stable_total_closes_update_span. Qed.

Lemma stable_total_closes_with_span_kind s k :
  stable total_closes (update_span s (with_span_kind k)).
Proof. by apply stable_total_closes_update_span. Qed.

Lemma stable_total_closes_with_status s st :
  stable total_closes (update_span s (with_status st)).
Proof. by apply stable_total_closes_update_span. Qed.

Lemma stable_total_closes_with_attribute s k v :
  stable total_closes (update_span s (with_attribute k v)).
Proof. by apply stable_total_closes_update_span. Qed.

Create HintDb counters.
#[export] Hint Resolve stable_span_count_update_span
  stable_span_count_add_attribute_to_current_span stable_span_count_end_span
  stable_total_closes_with_name stable_total_closes_with_span_kind
  stable_total_closes_with_status stable_total_closes_with_attribute
  stable_total_closes_add_attribute_to_current_span
  stable_total_closes_start_span : counters.

Ltac counters := intros; unfold_middleware; eauto 80 with frame counters.
Ltac grows_after := apply grows_bind_l; [counters|intros ?].

(** X17: under every schedule of collaborator failures the span store only
    grows, and by one span per hook at most: [process_request] and a database
    call through [_trace_db_call] open at most one span each;
    [process_view], [process_response] and [process_exception] open none. *)
Theorem hooks_open_at_most_one_span dtu self request view_func response exception
    execute sql params many context :
  grows span_count 1 (process_request dtu self request) /\
  grows span_count 1 (_trace_db_call execute sql params many context) /\
  stable span_count (process_view dtu self request view_func) /\
  stable span_count (process_response dtu self request response) /\
  stable span_count (process_exception dtu self request exception).
Proof.
  split; [|split; [|repeat split; counters]].
  - unfold process_request.
    destruct (dtu _ _); [apply (grows_weaken _ 0); [lia|apply grows_stable; frame]|].
    do 2 grows_after.
    apply (grows_try_except _ 1 0); [|intros; apply grows_stable; frame].
    unfold process_request_tracing. do 5 grows_after.
    apply grows_bind_r; [apply grows_span_count_start_span|counters].
  - unfold _trace_db_call. apply grows_bind_l; [counters|intros tracer].
    destruct tracer as [t|]; [|apply (grows_weaken _ 0); [lia|apply grows_stable; frame]].
    apply grows_bind_r; [apply grows_span_count_start_span|counters].
Qed.

(** X18: under every schedule of collaborator failures the number of closes,
    all spans together, never goes down, and goes up by one at most in
    [process_response] and in a database call through [_trace_db_call];
    [process_request], [process_view] and [process_exception] leave it as it
    was. *)
Theorem hooks_close_at_most_one_span dtu self request view_func response exception
    execute sql params many context :
  grows total_closes 1 (process_response dtu self request response) /\
  grows total_closes 1 (_trace_db_call execute sql params many context) /\
  stable total_closes (process_request dtu self request) /\
  stable total_closes (process_view dtu self request view_func) /\
  stable total_closes (process_exception dtu self request exception).
Proof.
  split; [|split; [|repeat split; counters]].
  - unfold process_response.
    destruct (dtu _ _); [apply (grows_weaken _ 0); [lia|apply grows_stable; frame]|].
    apply grows_finally_return.
    apply (grows_try_except _ 1 0); [|intros; apply grows_stable; frame].
    unfold process_response_tracing. do 4 grows_after.
    apply grows_bind_r; [apply grows_total_closes_end_span|counters].
  - unfold _trace_db_call. apply grows_bind_l; [counters|intros tracer].
    destruct tracer as [t|]; [|apply (grows_weaken _ 0); [lia|apply grows_stable; frame]].
    do 7 grows_after.
    apply (grows_try_finally _ 0 1);
      [apply grows_stable; counters|apply grows_total_closes_end_span].
Qed.
